(** * VoiceCleaner: the two-pass loudness normalisation pipeline of [app.py]

    A shallow embedding of [app.py] and the properties its specification
    states about it.

    The program is a short orchestration script: it spawns [ffprobe] and
    [ffmpeg] (twice), and glues their textual outputs together.  The
    embedding keeps that shape:

    - the Python runtime the script leans on ([subprocess.run],
      [json.loads], the text of a float in an f-string, [str()] of a
      non-string value) is an interface, the class [Runtime]; every theorem
      holds for every implementation of it;
    - exceptions are values of the type [exn], one constructor per Python
      exception class the script can meet;
    - a run threads a [state] made of the outside world and the list of the
      argument vectors spawned so far, through the monad [M];
    - the regular expression [LOUDNORM_JSON_RE] is a value of a small regex
      syntax, run by a backtracking matcher;
    - text is a [string], the bytes of its UTF-8 form; a [Path] is the text
      [str()] gives for it. *)

From Stdlib Require Import String Ascii List ZArith Bool Floats Lia.
Import ListNotations.
Local Open Scope string_scope.
Local Open Scope list_scope.

Set Implicit Arguments.

(** ** Python values and exceptions *)

(** Exceptions, by class.  [RuntimeError] is the only class [app.py] raises
    itself; the others come out of the runtime ([dict] indexing, attribute
    lookup, iteration, [json.loads], [subprocess.run]). *)
Inductive exn : Type :=
| RuntimeError (msg : string)
| KeyError (key : string)
| TypeError (msg : string)
| AttributeError (msg : string)
| JSONDecodeError (msg : string)
| OSError (msg : string)
| UnicodeDecodeError (msg : string)
| CalledProcessError (returncode : Z).

(** The name of the class, [type(e).__name__]; [OSError] stands for its
    subclasses as well. *)
Definition exn_type (e : exn) : string :=
  match e with
  | RuntimeError _ => "RuntimeError"
  | KeyError _ => "KeyError"
  | TypeError _ => "TypeError"
  | AttributeError _ => "AttributeError"
  | JSONDecodeError _ => "JSONDecodeError"
  | OSError _ => "OSError"
  | UnicodeDecodeError _ => "UnicodeDecodeError"
  | CalledProcessError _ => "CalledProcessError"
  end.

(** What [json.loads] produces ([dict[str, Any]] and below).  A [dict] is
    the list of its items; [dict_get] reads the first binding of a key. *)
#[local] Unset Elimination Schemes.
Inductive json : Type :=
| JNull
| JBool (b : bool)
| JInt (z : Z)
| JFloat (f : float)
| JStr (s : string)
| JArr (items : list json)
| JObj (items : list (string * json)).
#[local] Set Elimination Schemes.

Definition type_name (v : json) : string :=
  match v with
  | JNull => "NoneType"
  | JBool _ => "bool"
  | JInt _ => "int"
  | JFloat _ => "float"
  | JStr _ => "str"
  | JArr _ => "list"
  | JObj _ => "dict"
  end.

Fixpoint dict_get (d : list (string * json)) (k : string) : option json :=
  match d with
  | [] => None
  | (k', v) :: d' => if String.eqb k' k then Some v else dict_get d' k
  end.

(** [v.get(k, default)]: only a [dict] has the method. *)
Definition py_get (v : json) (k : string) (default : json) : exn + json :=
  match v with
  | JObj d => inr (match dict_get d k with Some x => x | None => default end)
  | _ => inl (AttributeError
                ("'" ++ type_name v ++ "' object has no attribute 'get'"))
  end.

(** [v[k]] with a string key. *)
Definition py_getitem (v : json) (k : string) : exn + json :=
  match v with
  | JObj d => match dict_get d k with
              | Some x => inr x
              | None => inl (KeyError k)
              end
  | JArr _ => inl (TypeError "list indices must be integers or slices, not str")
  | JStr _ => inl (TypeError "string indices must be integers, not 'str'")
  | _ => inl (TypeError ("'" ++ type_name v ++ "' object is not subscriptable"))
  end.

(** [for s in v]: the elements a [for] loop visits. *)
Definition py_iter (v : json) : exn + list json :=
  match v with
  | JArr l => inr l
  | JObj d => inr (map (fun kv => JStr (fst kv)) d)
  | JStr s => inr (map (fun c => JStr (String c "")) (list_ascii_of_string s))
  | _ => inl (TypeError ("'" ++ type_name v ++ "' object is not iterable"))
  end.

(** [v == lit] for a string literal [lit]. *)
Definition py_eq_str (v : json) (lit : string) : bool :=
  match v with
  | JStr s => String.eqb s lit
  | _ => false
  end.

(** The line feed of the [\n] escapes. *)
Definition nl : string := String (ascii_of_nat 10) "".

(** ** Regular expressions: the fragment [LOUDNORM_JSON_RE] is written in *)

Module Re.

(** A pattern is a sequence of atoms: a literal character, or a greedy
    starred character class. *)
Inductive atom : Type :=
| Lit (c : ascii)
| Star (cls : ascii -> bool).

Definition pattern := list atom.

(** [\s] as [re.ASCII] has it: space and [\t\n\v\f\r].  On text the
    class has more members; [[\s\S]] below is every character whichever is
    taken. *)
Definition is_space (c : ascii) : bool :=
  let n := nat_of_ascii c in
  Nat.eqb n 32 || (Nat.leb 9 n && Nat.leb n 13).

(** The class [[\s\S]]. *)
Definition space_or_not (c : ascii) : bool := is_space c || negb (is_space c).

(** Backtracking match anchored at the head of [s]: the length of the
    match found first.  A star takes as many characters as it can and
    gives them back one at a time while the rest of the pattern fails. *)
Fixpoint match_here (p : pattern) (s : string) : option nat :=
  match p with
  | [] => Some 0
  | Lit c :: p' =>
      match s with
      | String c' s' =>
          if Ascii.eqb c c' then option_map S (match_here p' s') else None
      | EmptyString => None
      end
  | Star cls :: p' =>
      (fix star (s : string) : option nat :=
         match s with
         | String c s' =>
             if cls c then
               match star s' with
               | Some n => Some (S n)
               | None => match_here p' s
               end
             else match_here p' s
         | EmptyString => match_here p' s
         end) s
  end.

(** [p.search(s)] then [m.group(0)]: the match at the leftmost position
    that has one. *)
Fixpoint search (p : pattern) (s : string) : option string :=
  match match_here p s with
  | Some n => Some (substring 0 n s)
  | None =>
      match s with
      | String _ s' => search p s'
      | EmptyString => None
      end
  end.

End Re.

(** [LOUDNORM_JSON_RE = re.compile(r"\{[\s\S]*\}")] *)
Definition LOUDNORM_JSON_RE : Re.pattern :=
  [Re.Lit "{"%char; Re.Star Re.space_or_not; Re.Lit "}"%char].

(** *** The scan in the words of the specification

    "First [{] to last [}]": the two positions, and the text between them
    when the first comes before the second. *)
Fixpoint index_of (c : ascii) (s : string) : option nat :=
  match s with
  | EmptyString => None
  | String c' s' => if Ascii.eqb c' c then Some 0 else option_map S (index_of c s')
  end.

Fixpoint rindex_of (c : ascii) (s : string) : option nat :=
  match s with
  | EmptyString => None
  | String c' s' =>
      match rindex_of c s' with
      | Some j => Some (S j)
      | None => if Ascii.eqb c' c then Some 0 else None
      end
  end.

Definition brace_span (text : string) : option string :=
  match index_of "{"%char text, rindex_of "}"%char text with
  | Some i, Some j =>
      if Nat.ltb i j then Some (substring i (j - i + 1) text) else None
  | _, _ => None
  end.

(** ** The runtime interface *)

(** How spawning one child ends: it ran and exited, or [subprocess.run]
    itself raised because the executable could not be started or because
    its output is not text. *)
Inductive child_outcome : Type :=
| Exited (returncode : Z) (stdout stderr : string)
| LaunchFailed (msg : string)
| Undecodable (msg : string).

Class Runtime : Type := {
  (** the world outside the program: files, installed tools *)
  World : Type;
  (** spawning an argument vector and waiting for the child *)
  spawn : list string -> World -> child_outcome * World;
  (** [json.loads] *)
  json_loads : string -> exn + json;
  (** the text of a float in an f-string, [format(x, '')] *)
  float_str : float -> string;
  (** [str(v)] for a value that is not a [str] *)
  py_repr : json -> string
}.

(** [subprocess.CompletedProcess] *)
Record CompletedProcess : Type := {
  args : list string;
  returncode : Z;
  stdout : string;
  stderr : string
}.

(** [@dataclass(frozen=True) class LoudnormStats] *)
Record LoudnormStats : Type := {
  input_i : string;
  input_tp : string;
  input_lra : string;
  input_thresh : string;
  target_offset : string
}.

(** ** The program *)

Section Pipeline.

Context {R : Runtime}.

(** The state of a run: the world, and the commands spawned so far, the
    oldest first.  The program keeps no such list; it is the record the
    statements about invocations are made on. *)
Record state : Type := {
  world : World;
  trace : list (list string)
}.

Definition M (A : Type) : Type := state -> (exn + A) * state.

Definition ret {A} (a : A) : M A := fun st => (inr a, st).

Definition raise {A} (e : exn) : M A := fun st => (inl e, st).

Definition bind {A B} (m : M A) (k : A -> M B) : M B :=
  fun st =>
    match m st with
    | (inr a, st') => k a st'
    | (inl e, st') => (inl e, st')
    end.

(** A pure computation that may raise. *)
Definition lift {A} (r : exn + A) : M A := fun st => (r, st).

Local Notation "x <- m ;; k" := (bind m (fun x => k))
  (at level 61, m at next level, right associativity).

(** [str(v)] *)
Definition py_str (v : json) : string :=
  match v with
  | JStr s => s
  | _ => py_repr v
  end.

(** [subprocess.run(cmd, text=True, stdout=PIPE, stderr=PIPE, check=check)] *)
Definition subprocess_run (cmd : list string) (check : bool)
  : M CompletedProcess :=
  fun st =>
    let (o, w) := spawn cmd (world st) in
    let st' := {| world := w; trace := trace st ++ [cmd] |} in
    match o with
    | Exited rc out err =>
        if check && negb (Z.eqb rc 0)
        then (inl (CalledProcessError rc), st')
        else (inr {| args := cmd; returncode := rc;
                     stdout := out; stderr := err |}, st')
    | LaunchFailed msg => (inl (OSError msg), st')
    | Undecodable msg => (inl (UnicodeDecodeError msg), st')
    end.

(** [def run(cmd)] *)
Definition run (cmd : list string) : M CompletedProcess :=
  subprocess_run cmd false.

(** The [cmd] of [ffprobe_json]. *)
Definition ffprobe_cmd (inp : string) : list string :=
  ["ffprobe"; "-v"; "error"; "-print_format"; "json";
   "-show_streams"; "-show_format"; inp].

(** [def ffprobe_json(inp)] *)
Definition ffprobe_json (inp : string) : M json :=
  p <- run (ffprobe_cmd inp) ;;
  if negb (Z.eqb (returncode p) 0)
  then raise (RuntimeError ("ffprobe failed:" ++ nl ++ stderr p))
  else lift (json_loads (stdout p)).

(** The [for] loop of [pick_audio_stream]. *)
Fixpoint pick_audio_loop (streams : list json) : exn + option json :=
  match streams with
  | [] => inr None
  | s :: rest =>
      match py_get s "codec_type" JNull with
      | inl e => inl e
      | inr ty =>
          if py_eq_str ty "audio" then inr (Some s) else pick_audio_loop rest
      end
  end.

(** [def pick_audio_stream(meta)] *)
Definition pick_audio_stream (meta : json) : exn + option json :=
  match py_get meta "streams" (JArr []) with
  | inl e => inl e
  | inr streams =>
      match py_iter streams with
      | inl e => inl e
      | inr l => pick_audio_loop l
      end
  end.

(** The [parts] of [build_base_filters]. *)
Definition base_filter_parts : list string :=
  ["highpass=f=90";
   "lowpass=f=8000";
   "anlmdn=s=0.00005:p=0.05";
   "agate=threshold=-35dB:ratio=2:attack=10:release=120";
   "acompressor=threshold=-18dB:ratio=3:attack=5:release=80:makeup=4";
   "alimiter=limit=0.98"].

(** [def build_base_filters()] *)
Definition build_base_filters : string :=
  String.concat "," base_filter_parts.

(** The [af] of [measure_loudnorm]. *)
Definition measure_af (base_filters : string) (target_i : float) : string :=
  base_filters ++ ",loudnorm=I=" ++ float_str target_i
    ++ ":TP=-1.5:LRA=11:print_format=json".

(** The [cmd] of [measure_loudnorm]. *)
Definition measure_cmd (inp af : string) : list string :=
  ["ffmpeg"; "-hide_banner"; "-nostdin"; "-y"; "-i"; inp;
   "-map"; "0:a:0"; "-vn"; "-af"; af; "-f"; "null"; "-"].

(** The [LoudnormStats(...)] call: the five lookups, in the order of the
    keyword arguments. *)
Definition stats_of_report (data : json) : exn + LoudnormStats :=
  match py_getitem data "input_i" with
  | inl e => inl e
  | inr i =>
  match py_getitem data "input_tp" with
  | inl e => inl e
  | inr tp =>
  match py_getitem data "input_lra" with
  | inl e => inl e
  | inr lra =>
  match py_getitem data "input_thresh" with
  | inl e => inl e
  | inr thresh =>
  match py_getitem data "target_offset" with
  | inl e => inl e
  | inr offset =>
      inr {| input_i := py_str i;
             input_tp := py_str tp;
             input_lra := py_str lra;
             input_thresh := py_str thresh;
             target_offset := py_str offset |}
  end end end end end.

(** [def measure_loudnorm(inp, base_filters, target_i)] *)
Definition measure_loudnorm (inp base_filters : string) (target_i : float)
  : M LoudnormStats :=
  let af := measure_af base_filters target_i in
  p <- run (measure_cmd inp af) ;;
  if negb (Z.eqb (returncode p) 0)
  then raise (RuntimeError
                ("ffmpeg loudnorm measure failed:" ++ nl ++ stderr p))
  else
    match Re.search LOUDNORM_JSON_RE (stderr p) with
    | None =>
        raise (RuntimeError
                 ("Could not parse loudnorm json from ffmpeg output:"
                    ++ nl ++ stderr p))
    | Some block =>
        data <- lift (json_loads block) ;;
        lift (stats_of_report data)
    end.

(** The [loudnorm_apply] of [clean_video]. *)
Definition loudnorm_apply (target_i : float) (stats : LoudnormStats)
  : string :=
  "loudnorm=I=" ++ float_str target_i ++ ":TP=-1.5:LRA=11:"
    ++ "measured_I=" ++ input_i stats ++ ":measured_TP=" ++ input_tp stats
    ++ ":"
    ++ "measured_LRA=" ++ input_lra stats ++ ":measured_thresh="
    ++ input_thresh stats ++ ":"
    ++ "offset=" ++ target_offset stats
    ++ ":linear=true:print_format=summary".

(** The [af] of [clean_video]. *)
Definition apply_af (base_filters : string) (target_i : float)
  (stats : LoudnormStats) : string :=
  base_filters ++ "," ++ loudnorm_apply target_i stats.

(** The [cmd] of [clean_video]. *)
Definition clean_cmd (inp out af audio_bitrate : string) : list string :=
  ["ffmpeg"; "-hide_banner"; "-nostdin"; "-y"; "-i"; inp;
   "-map"; "0:v:0"; "-c:v"; "copy";
   "-map"; "0:a:0"; "-af"; af; "-c:a"; "aac"; "-b:a"; audio_bitrate;
   "-movflags"; "+faststart"; out].

(** [def clean_video(inp, out, target_i, audio_bitrate)] *)
Definition clean_video (inp out : string) (target_i : float)
  (audio_bitrate : string) : M unit :=
  meta <- ffprobe_json inp ;;
  astream <- lift (pick_audio_stream meta) ;;
  match astream with
  | None => raise (RuntimeError "Input has no audio stream.")
  | Some _ =>
      let base_filters := build_base_filters in
      stats <- measure_loudnorm inp base_filters target_i ;;
      let af := apply_af base_filters target_i stats in
      p <- run (clean_cmd inp out af audio_bitrate) ;;
      if negb (Z.eqb (returncode p) 0)
      then raise (RuntimeError ("ffmpeg clean failed:" ++ nl ++ stderr p))
      else ret tt
  end.

End Pipeline.

(** ** The vocabulary of the specification *)

(** *** Media descriptors *)

Definition is_dict (v : json) : bool :=
  match v with
  | JObj _ => true
  | _ => false
  end.

(** The stream list of a descriptor: the value of its ["streams"] key, an
    absent key standing for no stream. *)
Definition stream_list (meta : json) : option (list json) :=
  match meta with
  | JObj d =>
      match dict_get d "streams" with
      | None => Some []
      | Some (JArr l) => Some l
      | Some _ => None
      end
  | _ => None
  end.

(** "An entry whose codec-type field equals [ty]". *)
Definition codec_type_is (ty : string) (s : json) : bool :=
  match s with
  | JObj d =>
      match dict_get d "codec_type" with
      | Some (JStr t) => String.eqb t ty
      | _ => false
      end
  | _ => false
  end.

(** A media descriptor: a mapping whose stream list holds mappings. *)
Definition media_descriptor (meta : json) (streams : list json) : Prop :=
  stream_list meta = Some streams /\ forallb is_dict streams = true.

(** *** Filter chains *)

(** A filter of the chain as the specification lists it: a name and its
    options. *)
Record audio_filter : Type := {
  filter_name : string;
  options : list (string * string)
}.

Definition render_filter (f : audio_filter) : string :=
  filter_name f ++ "="
    ++ String.concat ":" (map (fun kv => (fst kv ++ "=" ++ snd kv)%string) (options f)).

(** Section 4.3: high-pass, low-pass, denoiser, gate, compressor, limiter. *)
Definition specified_chain : list audio_filter :=
  [ {| filter_name := "highpass"; options := [("f", "90")] |};
    {| filter_name := "lowpass"; options := [("f", "8000")] |};
    {| filter_name := "anlmdn"; options := [("s", "0.00005"); ("p", "0.05")] |};
    {| filter_name := "agate";
       options := [("threshold", "-35dB"); ("ratio", "2");
                   ("attack", "10"); ("release", "120")] |};
    {| filter_name := "acompressor";
       options := [("threshold", "-18dB"); ("ratio", "3"); ("attack", "5");
                   ("release", "80"); ("makeup", "4")] |};
    {| filter_name := "alimiter"; options := [("limit", "0.98")] |} ].

(** [s.split(sep)] for a one-character separator. *)
Fixpoint split_on (sep : ascii) (s : string) : list string :=
  match s with
  | EmptyString => [""]
  | String c s' =>
      if Ascii.eqb c sep then "" :: split_on sep s'
      else
        match split_on sep s' with
        | [] => [String c ""]
        | h :: t => String c h :: t
        end
  end.

(** The parameters of a [loudnorm=k=v:k=v:...] expression. *)
Definition loudnorm_params (expr : string) : option (list string) :=
  if String.prefix "loudnorm=" expr
  then Some (split_on ":"%char
               (substring 9 (String.length expr - 9) expr))
  else None.

(** The base chain embedded in a filter argument: what comes before the
    loudnorm stage. *)
Fixpoint base_chain (af : string) : string :=
  if String.prefix ",loudnorm=" af then ""
  else
    match af with
    | EmptyString => ""
    | String c af' => String c (base_chain af')
    end.

(** "Explicit video-stream mapping with copy codec": the four arguments,
    next to each other, somewhere in the vector. *)
Definition video_copy_mapped (cmd : list string) : Prop :=
  exists pre post, cmd = pre ++ ["-map"; "0:v:0"; "-c:v"; "copy"] ++ post.

(** *** Failures *)

(** The class name of what a computation raised, if it raised. *)
Definition raised_type {A : Type} (r : exn + A) : option string :=
  match r with
  | inl e => Some (exn_type e)
  | inr _ => None
  end.

(** The five fields a report must have, in the order they are read. *)
Definition required_fields : list string :=
  ["input_i"; "input_tp"; "input_lra"; "input_thresh"; "target_offset"].

Definition first_missing (d : list (string * json)) : option string :=
  find (fun k => match dict_get d k with None => true | Some _ => false end)
       required_fields.

(** *** The example of section 8 *)

Definition example_stats : LoudnormStats :=
  {| input_i := "-23.1"; input_tp := "-2.0"; input_lra := "7.3";
     input_thresh := "-33.5"; target_offset := "1.2" |}.

(** The nine parameters the specification lists for it. *)
Definition listed_params : list string :=
  ["I=-16.0"; "TP=-1.5"; "LRA=11"; "measured_I=-23.1"; "measured_TP=-2.0";
   "measured_LRA=7.3"; "measured_thresh=-33.5"; "offset=1.2"; "linear=true"].

(** *** Stages of a run *)

Inductive stage : Type := Probe | Measure | Encode.

(** The headline of the failure message of a stage. *)
Definition stage_headline (s : stage) : string :=
  match s with
  | Probe => "ffprobe failed:"
  | Measure => "ffmpeg loudnorm measure failed:"
  | Encode => "ffmpeg clean failed:"
  end.

Section Runs.

Context {R : Runtime}.

(** What [measure_loudnorm] makes of a child that exited. *)
Definition measurement_of (rc : Z) (err : string) : exn + LoudnormStats :=
  if Z.eqb rc 0 then
    match Re.search LOUDNORM_JSON_RE err with
    | None =>
        inl (RuntimeError
               ("Could not parse loudnorm json from ffmpeg output:"
                  ++ nl ++ err))
    | Some block =>
        match json_loads block with
        | inl e => inl e
        | inr data => stats_of_report data
        end
    end
  else inl (RuntimeError ("ffmpeg loudnorm measure failed:" ++ nl ++ err)).

(** The last step of [clean_video]: the encode and the check of its
    status. *)
Definition encode_step (inp out : string) (target_i : float)
  (audio_bitrate : string) (stats : LoudnormStats) : M unit :=
  bind (run (clean_cmd inp out
               (apply_af build_base_filters target_i stats) audio_bitrate))
    (fun p =>
       if negb (Z.eqb (returncode p) 0)
       then raise (RuntimeError ("ffmpeg clean failed:" ++ nl ++ stderr p))
       else ret tt).

(** The probe went through from [st] and an audio stream was picked. *)
Definition probed (inp : string) (st st1 : state) : Prop :=
  exists meta astream,
    ffprobe_json inp st = (inr meta, st1)
    /\ pick_audio_stream meta = inr (Some astream).

(** Probe and measurement went through from [st] and gave [stats]. *)
Definition measured (inp : string) (target_i : float) (st : state)
  (stats : LoudnormStats) (st2 : state) : Prop :=
  exists st1,
    probed inp st st1
    /\ measure_loudnorm inp build_base_filters target_i st1 = (inr stats, st2).

(** A run started in [st] gets as far as spawning [cmd], the command of
    stage [s], in the state [st_s]. *)
Definition reaches (s : stage) (inp out : string) (target_i : float)
  (audio_bitrate : string) (st : state) (cmd : list string)
  (st_s : state) : Prop :=
  match s with
  | Probe => st_s = st /\ cmd = ffprobe_cmd inp
  | Measure =>
      probed inp st st_s
      /\ cmd = measure_cmd inp (measure_af build_base_filters target_i)
  | Encode =>
      exists stats,
        measured inp target_i st stats st_s
        /\ cmd = clean_cmd inp out
                   (apply_af build_base_filters target_i stats)
                   audio_bitrate
  end.

End Runs.

(** ** A scripted runtime

    An implementation of [Runtime] for concrete runs: the world is the list
    of the outcomes of the children still to be spawned, and [json.loads]
    knows the documents of the scenarios below. *)

Module Fake.

(** The double quote. *)
Definition q : string := String (ascii_of_nat 34) "".

Definition member (k v : string) : string := q ++ k ++ q ++ ":" ++ q ++ v ++ q.

Definition next_child (cmd : list string) (w : list child_outcome)
  : child_outcome * list child_outcome :=
  match w with
  | o :: w' => (o, w')
  | [] => (LaunchFailed "No such file or directory", [])
  end.

(** [{"streams":[{"codec_type":"audio"}]}] *)
Definition audio_only_text : string :=
  "{" ++ q ++ "streams" ++ q ++ ":[{" ++ member "codec_type" "audio" ++ "}]}".

Definition audio_only : json :=
  JObj [("streams", JArr [JObj [("codec_type", JStr "audio")]])].

(** [{"streams":[{"codec_type":"video"}]}] *)
Definition video_only_text : string :=
  "{" ++ q ++ "streams" ++ q ++ ":[{" ++ member "codec_type" "video" ++ "}]}".

Definition video_only : json :=
  JObj [("streams", JArr [JObj [("codec_type", JStr "video")]])].

(** The report of the specification's example. *)
Definition report_text : string :=
  "{" ++ member "input_i" "-23.1" ++ "," ++ member "input_tp" "-2.0" ++ ","
    ++ member "input_lra" "7.3" ++ "," ++ member "input_thresh" "-33.5"
    ++ "," ++ member "target_offset" "1.2" ++ "}".

Definition report : json :=
  JObj [("input_i", JStr "-23.1"); ("input_tp", JStr "-2.0");
        ("input_lra", JStr "7.3"); ("input_thresh", JStr "-33.5");
        ("target_offset", JStr "1.2")].

(** The same report without its [input_lra] member. *)
Definition short_report_text : string :=
  "{" ++ member "input_i" "-23.1" ++ "," ++ member "input_tp" "-2.0" ++ ","
    ++ member "input_thresh" "-33.5"
    ++ "," ++ member "target_offset" "1.2" ++ "}".

Definition short_report : json :=
  JObj [("input_i", JStr "-23.1"); ("input_tp", JStr "-2.0");
        ("input_thresh", JStr "-33.5"); ("target_offset", JStr "1.2")].

Definition documents : list (string * json) :=
  [(audio_only_text, audio_only); (video_only_text, video_only);
   (report_text, report); (short_report_text, short_report)].

Fixpoint lookup (docs : list (string * json)) (s : string) : exn + json :=
  match docs with
  | [] => inl (JSONDecodeError "Expecting value")
  | (text, v) :: docs' => if String.eqb text s then inr v else lookup docs' s
  end.

Definition loads (s : string) : exn + json := lookup documents s.

Definition float_text (f : float) : string :=
  if PrimFloat.eqb f (-16)%float then "-16.0" else "0.0".

Definition repr (v : json) : string :=
  match v with
  | JNull => "None"
  | JBool true => "True"
  | JBool false => "False"
  | _ => "?"
  end.

Definition runtime : Runtime :=
  {| World := list child_outcome;
     spawn := next_child;
     json_loads := loads;
     float_str := float_text;
     py_repr := repr |}.

Definition start (w : list child_outcome) : state (R := runtime) :=
  @Build_state runtime w [].

(** The diagnostic text of an analysis pass: log lines around the report. *)
Definition analysis_log (block : string) : string :=
  "[Parsed_loudnorm_6 @ 0x5581]" ++ nl ++ block ++ nl.

(** Every child succeeds; the input has one audio stream and no video. *)
Definition all_good : list child_outcome :=
  [Exited 0 audio_only_text ""; Exited 0 "" (analysis_log report_text);
   Exited 0 "" "Input Integrated: -23.1 LUFS"].

(** The input has a video stream only. *)
Definition silent_film : list child_outcome :=
  [Exited 0 video_only_text ""].

(** The probe exits with status 1. *)
Definition probe_fails : list child_outcome :=
  [Exited 1 "" "clip.mp4: No such file or directory"].

(** The analysis pass exits with status 1. *)
Definition measure_fails : list child_outcome :=
  [Exited 0 audio_only_text ""; Exited 1 "" "Conversion failed!"].

(** The encode exits with status 1. *)
Definition encode_fails : list child_outcome :=
  [Exited 0 audio_only_text ""; Exited 0 "" (analysis_log report_text);
   Exited 1 "" "Error opening output file"].

(** The analysis pass prints no report. *)
Definition no_report : list child_outcome :=
  [Exited 0 audio_only_text ""; Exited 0 "" "size=N/A time=00:00:05.00"].

(** The analysis pass prints a report without [input_lra]. *)
Definition field_missing : list child_outcome :=
  [Exited 0 audio_only_text ""; Exited 0 "" (analysis_log short_report_text)].

Definition clean (w : list child_outcome) :=
  clean_video (R := runtime) "clip.mp4" "out.mp4" (-16)%float "192k" (start w).

(** The state a run is in once the first [n] children of a script have
    been spawned, given what they were spawned with. *)
Definition after (spawned : list (list string)) (w : list child_outcome)
  : state (R := runtime) :=
  @Build_state runtime (skipn (length spawned) w) spawned.

Definition probe_cmd : list string := ffprobe_cmd "clip.mp4".

Definition analysis_cmd : list string :=
  measure_cmd "clip.mp4"
    (measure_af (R := runtime) build_base_filters (-16)%float).

Definition encode_cmd : list string :=
  clean_cmd "clip.mp4" "out.mp4"
    (apply_af (R := runtime) build_base_filters (-16)%float example_stats)
    "192k".

(** A descriptor with a video stream, two audio streams and a subtitle
    stream, in that order. *)
Definition video_stream : json :=
  JObj [("index", JInt 0); ("codec_type", JStr "video")].

Definition first_audio : json :=
  JObj [("index", JInt 1); ("codec_name", JStr "aac");
        ("codec_type", JStr "audio")].

Definition second_audio : json :=
  JObj [("index", JInt 2); ("codec_name", JStr "mp3");
        ("codec_type", JStr "audio")].

Definition subtitle_stream : json :=
  JObj [("index", JInt 3); ("codec_type", JStr "subtitle")].

Definition mixed : json :=
  JObj [("streams",
         JArr [video_stream; first_audio; second_audio; subtitle_stream]);
        ("format", JObj [("format_name", JStr "matroska")])].

End Fake.

(** ** Vocabulary for the behaviour of the code beyond the claims *)

(** The character [c] does not occur in [s]. *)
Definition lacks (c : ascii) (s : string) : Prop := index_of c s = None.

(** An entry the loop of [pick_audio_stream] steps over: a mapping whose
    codec type is not "audio". *)
Definition plain_stream (s : json) : bool :=
  is_dict s && negb (codec_type_is "audio" s).

(** The entries the loop of [pick_audio_stream] has before it, when
    [meta.get("streams", [])] can be evaluated and iterated. *)
Definition visited_streams (meta : json) : option (list json) :=
  match meta with
  | JObj d =>
      match dict_get d "streams" with
      | None => Some []
      | Some v =>
          match py_iter v with
          | inr l => Some l
          | inl _ => None
          end
      end
  | _ => None
  end.

(** The [AttributeError] of calling [.get] on a value that is no [dict]. *)
Definition no_get (v : json) : exn :=
  AttributeError ("'" ++ type_name v ++ "' object has no attribute 'get'").

(** What [subprocess.run] raises for a child that did not run to an exit. *)
Definition spawn_error (o : child_outcome) : option exn :=
  match o with
  | Exited _ _ _ => None
  | LaunchFailed msg => Some (OSError msg)
  | Undecodable msg => Some (UnicodeDecodeError msg)
  end.

(** The parameters of the loudnorm stage of the analysis pass, and of the
    apply pass, for a target printed as [target] and statistics [stats]. *)
Definition measure_params (target : string) : list string :=
  [("I=" ++ target)%string; "TP=-1.5"; "LRA=11"; "print_format=json"].

Definition apply_params (target : string) (stats : LoudnormStats)
  : list string :=
  [("I=" ++ target)%string; "TP=-1.5"; "LRA=11";
   ("measured_I=" ++ input_i stats)%string;
   ("measured_TP=" ++ input_tp stats)%string;
   ("measured_LRA=" ++ input_lra stats)%string;
   ("measured_thresh=" ++ input_thresh stats)%string;
   ("offset=" ++ target_offset stats)%string;
   "linear=true"; "print_format=summary"].

(** The loudnorm stage of a filter argument: what follows the base chain
    and its comma. *)
Definition loudnorm_stage (base af : string) : string :=
  substring (S (String.length base))
    (String.length af - S (String.length base)) af.

(** The text a stage hands to [json.loads], given the output and the
    diagnostic text of its child: the probe parses the output, the
    measurement the block found in the diagnostics, the encode nothing. *)
Definition parsed_text (s : stage) (out err : string) : option string :=
  match s with
  | Probe => Some out
  | Measure => brace_span err
  | Encode => None
  end.

Section Failures.

Context {R : Runtime}.

(** The exceptions a run of [clean_video] can end with, by origin. *)
Inductive clean_video_error : exn -> Prop :=
| probe_failed err :
    clean_video_error (RuntimeError ("ffprobe failed:" ++ nl ++ err))
| no_audio :
    clean_video_error (RuntimeError "Input has no audio stream.")
| measure_failed err :
    clean_video_error
      (RuntimeError ("ffmpeg loudnorm measure failed:" ++ nl ++ err))
| no_report_found err :
    clean_video_error
      (RuntimeError
         ("Could not parse loudnorm json from ffmpeg output:" ++ nl ++ err))
| encode_failed err :
    clean_video_error (RuntimeError ("ffmpeg clean failed:" ++ nl ++ err))
| field_absent k :
    In k required_fields -> clean_video_error (KeyError k)
| report_not_a_mapping data k e :
    is_dict data = false ->
    py_getitem data k = inl e ->
    clean_video_error e
| descriptor_not_a_mapping v :
    is_dict v = false -> clean_video_error (no_get v)
| streams_not_iterable v e :
    py_iter v = inl e -> clean_video_error e
| not_json text e :
    json_loads text = inl e -> clean_video_error e
| child_not_run o e :
    spawn_error o = Some e -> clean_video_error e.

End Failures.

(** *** More scripted scenarios *)

Module Faults.

(** Nothing can be spawned: [ffprobe] is not installed. *)
Definition nothing_installed : list child_outcome := [].

(** The probe goes through, then [ffmpeg] cannot be started. *)
Definition no_ffmpeg : list child_outcome :=
  [Exited 0 Fake.audio_only_text ""].

(** The probe exits with status 0 and prints no JSON. *)
Definition garbled_probe : list child_outcome :=
  [Exited 0 "Unrecognized option" ""].

(** The analysis log has a closing brace after the report. *)
Definition trailing_brace_log : string :=
  (Fake.analysis_log Fake.report_text ++ "} done")%string.

Definition trailing_brace : list child_outcome :=
  [Exited 0 Fake.audio_only_text ""; Exited 0 "" trailing_brace_log].

(** Metadata whose stream list has an entry that is no mapping, after the
    first audio stream, and before it. *)
Definition junk_after_audio : json :=
  JObj [("streams", JArr [Fake.video_stream; Fake.first_audio; JInt 7])].

Definition junk_before_audio : json :=
  JObj [("streams", JArr [Fake.video_stream; JInt 7; Fake.first_audio])].

(** Metadata whose ["streams"] is a number. *)
Definition streams_is_a_number : json := JObj [("streams", JInt 2)].

End Faults.

(** ** The regular expression *)

Lemma space_or_not_any (c : ascii) : Re.space_or_not c = true.
Proof. unfold Re.space_or_not. apply orb_negb_r. Qed.

(** After the opening brace, the starred class runs to the last closing
    brace of the rest of the text. *)
Lemma star_then_close (s : string) :
  Re.match_here [Re.Star Re.space_or_not; Re.Lit "}"%char] s
  = option_map S (rindex_of "}"%char s).
Proof.
  induction s as [|c s IH].
  - reflexivity.
  - cbn [Re.match_here] in IH |- *.
    rewrite space_or_not_any, IH.
    cbn [rindex_of].
    destruct (rindex_of "}"%char s) as [j|]; cbn [option_map].
    + reflexivity.
    + rewrite (Ascii.eqb_sym c). destruct (Ascii.eqb "}"%char c); reflexivity.
Qed.

Lemma match_here_loudnorm (c : ascii) (s : string) :
  Re.match_here LOUDNORM_JSON_RE (String c s)
  = if Ascii.eqb "{"%char c
    then option_map S (option_map S (rindex_of "}"%char s))
    else None.
Proof.
  unfold LOUDNORM_JSON_RE.
  change (Re.match_here (Re.Lit "{"%char :: ?p) (String c s))
    with (if Ascii.eqb "{"%char c
          then option_map S (Re.match_here p s) else None).
  now rewrite star_then_close.
Qed.

Lemma search_without_close (s : string) :
  rindex_of "}"%char s = None -> Re.search LOUDNORM_JSON_RE s = None.
Proof.
  induction s as [|c s IH]; intros H.
  - reflexivity.
  - cbn [rindex_of] in H.
    destruct (rindex_of "}"%char s) as [j|] eqn:E; [discriminate|].
    cbn [Re.search]. rewrite match_here_loudnorm, E. cbn [option_map].
    destruct (Ascii.eqb "{"%char c); now apply IH.
Qed.

Lemma search_is_brace_span (text : string) :
  Re.search LOUDNORM_JSON_RE text = brace_span text.
Proof.
  induction text as [|c s IH].
  - reflexivity.
  - cbn [Re.search]. rewrite match_here_loudnorm.
    unfold brace_span. cbn [index_of rindex_of].
    rewrite (Ascii.eqb_sym c).
    destruct (Ascii.eqb "{"%char c) eqn:Ec.
    + apply Ascii.eqb_eq in Ec. subst c.
      destruct (rindex_of "}"%char s) as [j|] eqn:Ej; cbn [option_map].
      * cbn [Nat.ltb Nat.leb]. do 2 f_equal. lia.
      * cbn [Ascii.eqb Bool.eqb]. now apply search_without_close.
    + rewrite IH. unfold brace_span.
      destruct (index_of "{"%char s) as [i|]; cbn [option_map];
        [|reflexivity].
      destruct (rindex_of "}"%char s) as [j|].
      * change (Nat.ltb (S i) (S j)) with (Nat.ltb i j).
        destruct (Nat.ltb i j); [|reflexivity].
        replace (S j - S i + 1) with (j - i + 1) by lia. reflexivity.
      * destruct (Ascii.eqb c "}"%char); reflexivity.
Qed.

(** ** Runs of the pipeline *)

Section Correctness.

Context {R : Runtime}.

(** Unfold one monadic step whose outcome is known. *)
Ltac step H := unfold bind at 1; rewrite H.

Lemma run_unfold (cmd : list string) (st : state) :
  run cmd st
  = (match fst (spawn cmd (world st)) with
     | Exited rc out err =>
         inr {| args := cmd; returncode := rc;
                stdout := out; stderr := err |}
     | LaunchFailed msg => inl (OSError msg)
     | Undecodable msg => inl (UnicodeDecodeError msg)
     end,
     {| world := snd (spawn cmd (world st)); trace := trace st ++ [cmd] |}).
Proof.
  unfold run, subprocess_run.
  destruct (spawn cmd (world st)) as [[rc out err|msg|msg] w]; reflexivity.
Qed.

Lemma run_exited (cmd : list string) (st : state) rc out err w :
  spawn cmd (world st) = (Exited rc out err, w) ->
  run cmd st
  = (inr {| args := cmd; returncode := rc; stdout := out; stderr := err |},
     {| world := w; trace := trace st ++ [cmd] |}).
Proof. intros H. rewrite run_unfold, H. reflexivity. Qed.

Lemma run_trace (cmd : list string) (st : state) r st' :
  run cmd st = (r, st') -> trace st' = trace st ++ [cmd].
Proof. rewrite run_unfold. intros H. inversion H. reflexivity. Qed.

Lemma ffprobe_json_exited (inp : string) (st : state) rc out err w :
  spawn (ffprobe_cmd inp) (world st) = (Exited rc out err, w) ->
  ffprobe_json inp st
  = (if Z.eqb rc 0 then json_loads out
     else inl (RuntimeError ("ffprobe failed:" ++ nl ++ err)),
     {| world := w; trace := trace st ++ [ffprobe_cmd inp] |}).
Proof.
  intros H. unfold ffprobe_json. step (run_exited _ _ H).
  cbn [returncode stdout stderr]. destruct (Z.eqb rc 0); reflexivity.
Qed.

Lemma ffprobe_json_trace (inp : string) (st : state) r st1 :
  ffprobe_json inp st = (r, st1) ->
  trace st1 = trace st ++ [ffprobe_cmd inp].
Proof.
  unfold ffprobe_json, bind.
  destruct (run (ffprobe_cmd inp) st) as [[e|p] st'] eqn:E.
  - intros H. inversion H. subst. eapply run_trace, E.
  - destruct (negb (Z.eqb (returncode p) 0)); unfold raise, lift;
      intros H; inversion H; subst; eapply run_trace, E.
Qed.

Lemma measure_loudnorm_exited (inp base : string) (target_i : float)
  (st : state) rc out err w :
  spawn (measure_cmd inp (measure_af base target_i)) (world st)
  = (Exited rc out err, w) ->
  measure_loudnorm inp base target_i st
  = (measurement_of rc err,
     {| world := w;
        trace := trace st ++ [measure_cmd inp (measure_af base target_i)] |}).
Proof.
  intros H. unfold measure_loudnorm, measurement_of. step (run_exited _ _ H).
  cbn [returncode stdout stderr].
  destruct (Z.eqb rc 0); [|reflexivity]. cbn [negb].
  destruct (Re.search LOUDNORM_JSON_RE err) as [block|]; [|reflexivity].
  unfold bind, lift. destruct (json_loads block); reflexivity.
Qed.

Lemma measure_loudnorm_trace (inp base : string) (target_i : float)
  (st : state) r st2 :
  measure_loudnorm inp base target_i st = (r, st2) ->
  trace st2 = trace st ++ [measure_cmd inp (measure_af base target_i)].
Proof.
  unfold measure_loudnorm, bind.
  destruct (run _ st) as [[e|p] st'] eqn:E; apply run_trace in E.
  - intros H. inversion H. now subst.
  - destruct (negb (Z.eqb (returncode p) 0)).
    + intros H. inversion H. now subst.
    + destruct (Re.search _ _).
      * unfold lift. destruct (json_loads _); intros H; inversion H;
          now subst.
      * intros H. inversion H. now subst.
Qed.

Lemma clean_video_probed (inp out : string) (target_i : float)
  (audio_bitrate : string) (st st1 : state) :
  probed inp st st1 ->
  clean_video inp out target_i audio_bitrate st
  = bind (measure_loudnorm inp build_base_filters target_i)
      (encode_step inp out target_i audio_bitrate) st1.
Proof.
  intros (meta & astream & Hp & Ha).
  unfold clean_video. step Hp. unfold bind at 1, lift. rewrite Ha.
  reflexivity.
Qed.

Lemma clean_video_measured (inp out : string) (target_i : float)
  (audio_bitrate : string) (st st2 : state) (stats : LoudnormStats) :
  measured inp target_i st stats st2 ->
  clean_video inp out target_i audio_bitrate st
  = encode_step inp out target_i audio_bitrate stats st2.
Proof.
  intros (st1 & Hp & Hm).
  rewrite (clean_video_probed _ _ _ Hp). step Hm. reflexivity.
Qed.

Lemma encode_step_trace (inp out : string) (target_i : float)
  (audio_bitrate : string) (stats : LoudnormStats) (st2 : state) :
  trace (snd (encode_step inp out target_i audio_bitrate stats st2))
  = trace st2
      ++ [clean_cmd inp out (apply_af build_base_filters target_i stats)
            audio_bitrate].
Proof.
  unfold encode_step, bind. rewrite run_unfold.
  destruct (fst (spawn _ _)) as [rc o e|msg|msg]; try reflexivity.
  cbn [returncode]. destruct (negb (Z.eqb rc 0)); reflexivity.
Qed.

Lemma probed_trace (inp : string) (st st1 : state) :
  probed inp st st1 -> trace st1 = trace st ++ [ffprobe_cmd inp].
Proof. intros (meta & a & Hp & _). eapply ffprobe_json_trace, Hp. Qed.

Lemma measured_trace (inp : string) (target_i : float) (st st2 : state)
  (stats : LoudnormStats) :
  measured inp target_i st stats st2 ->
  trace st2
  = trace st
      ++ [ffprobe_cmd inp;
          measure_cmd inp (measure_af build_base_filters target_i)].
Proof.
  intros (st1 & Hp & Hm).
  rewrite (measure_loudnorm_trace _ _ _ _ Hm), (probed_trace Hp).
  now rewrite <- app_assoc.
Qed.

(** *** The process invoker *)

(** C9.  [run] hands back the exit code, the standard output and the
    standard error of the child it spawned, as the completed process, and
    raises nothing, whatever the exit code is. *)
Theorem run_returns_completed_process (cmd : list string) (st : state)
  rc out err w :
  spawn cmd (world st) = (Exited rc out err, w) ->
  run cmd st
  = (inr {| args := cmd; returncode := rc; stdout := out; stderr := err |},
     {| world := w; trace := trace st ++ [cmd] |})
  /\ (forall e, fst (run cmd st) <> inl e).
Proof.
  intros H. rewrite (run_exited _ _ H). split; [reflexivity|].
  intros e. discriminate.
Qed.

(** *** The prober *)

Lemma pick_audio_loop_find (streams : list json) :
  forallb is_dict streams = true ->
  pick_audio_loop streams = inr (find (codec_type_is "audio") streams).
Proof.
  induction streams as [|s rest IH]; intros Hd.
  - reflexivity.
  - cbn [forallb] in Hd. apply andb_prop in Hd as [Hs Hrest].
    destruct s as [| | | | | |d]; try discriminate.
    cbn [pick_audio_loop find py_get codec_type_is].
    rewrite (IH Hrest).
    destruct (dict_get d "codec_type") as [[| | | |t| |]|];
      cbn [py_eq_str]; try reflexivity.
    destruct (String.eqb t "audio"); reflexivity.
Qed.

Lemma find_after_others {A : Type} (f : A -> bool) (pre post : list A)
  (x : A) :
  forallb (fun y => negb (f y)) pre = true ->
  f x = true ->
  find f (pre ++ x :: post) = Some x.
Proof.
  induction pre as [|y pre IH]; cbn [forallb app find]; intros Hpre Hx.
  - now rewrite Hx.
  - apply andb_prop in Hpre as [Hy Hpre].
    apply negb_true_iff in Hy. rewrite Hy. now apply IH.
Qed.

Lemma find_no_match {A : Type} (f : A -> bool) (l : list A) :
  filter f l = [] -> find f l = None.
Proof.
  induction l as [|y l IH]; cbn [filter find]; [reflexivity|].
  destruct (f y); [discriminate|exact IH].
Qed.

Lemma pick_audio_stream_find (meta : json) (streams : list json) :
  media_descriptor meta streams ->
  pick_audio_stream meta = inr (find (codec_type_is "audio") streams).
Proof.
  intros [Hl Hd]. destruct meta as [| | | | | |d]; try discriminate.
  unfold pick_audio_stream. cbn [stream_list py_get] in Hl |- *.
  destruct (dict_get d "streams") as [[| | | | |l|]|]; try discriminate;
    injection Hl as <-; cbn [py_iter]; now apply pick_audio_loop_find.
Qed.

(** C8.  On a media descriptor, [pick_audio_stream] returns the first
    entry of the stream list whose codec type is "audio": entries of other
    types before it are skipped, and when there is no such entry the
    result is [None], not an exception. *)
Theorem pick_audio_stream_first (meta : json) (streams : list json) :
  media_descriptor meta streams ->
  pick_audio_stream meta = inr (find (codec_type_is "audio") streams)
  /\ (forall pre s post,
        streams = pre ++ s :: post ->
        forallb (fun x => negb (codec_type_is "audio" x)) pre = true ->
        codec_type_is "audio" s = true ->
        pick_audio_stream meta = inr (Some s))
  /\ (filter (codec_type_is "audio") streams = [] ->
      pick_audio_stream meta = inr None).
Proof.
  intros Hm. rewrite (pick_audio_stream_find Hm). repeat split.
  - intros pre s post -> Hpre Hs. now rewrite find_after_others.
  - intros Hnone. now rewrite find_no_match.
Qed.

(** *** The filter chain *)

(** C6.  [build_base_filters] is a constant: the six filters of section
    4.3, each rendered as [name=key=value:...], joined by commas in the
    order high-pass, low-pass, denoiser, gate, compressor, limiter. *)
Theorem build_base_filters_chain :
  build_base_filters = String.concat "," (map render_filter specified_chain)
  /\ map render_filter specified_chain = base_filter_parts
  /\ length base_filter_parts = 6
  /\ split_on ","%char build_base_filters = base_filter_parts
  /\ build_base_filters =
       ("highpass=f=90,lowpass=f=8000,anlmdn=s=0.00005:p=0.05,"
        ++ "agate=threshold=-35dB:ratio=2:attack=10:release=120,"
        ++ "acompressor=threshold=-18dB:ratio=3:attack=5:release=80:makeup=4,"
        ++ "alimiter=limit=0.98")%string.
Proof. repeat split; reflexivity. Qed.

(** *** The measurer *)

(** C7.  The report is found by the regular expression, whose match is
    the text from the first opening brace to the last closing brace (a
    closing brace further on in the log lengthens it), and that text is
    what [json.loads] is given before the five fields are read. *)
Theorem greedy_brace_scan :
  (forall text, Re.search LOUDNORM_JSON_RE text = brace_span text)
  /\ (forall inp base target_i (st : state) out err w,
        spawn (measure_cmd inp (measure_af base target_i)) (world st)
        = (Exited 0 out err, w) ->
        fst (measure_loudnorm inp base target_i st)
        = match brace_span err with
          | None =>
              inl (RuntimeError
                     ("Could not parse loudnorm json from ffmpeg output:"
                        ++ nl ++ err))
          | Some block =>
              match json_loads block with
              | inl e => inl e
              | inr data => stats_of_report data
              end
          end)
  /\ brace_span "log { a } tail } end" = Some "{ a } tail }".
Proof.
  split; [exact search_is_brace_span|]. split; [|reflexivity].
  intros inp base target_i st out err w H.
  rewrite (measure_loudnorm_exited _ _ _ _ H). cbn [fst].
  unfold measurement_of. cbn [Z.eqb]. now rewrite search_is_brace_span.
Qed.

Lemma stats_of_report_missing (d : list (string * json)) (k : string) :
  first_missing d = Some k -> stats_of_report (JObj d) = inl (KeyError k).
Proof.
  unfold first_missing, required_fields, stats_of_report.
  cbn [find py_getitem].
  repeat (match goal with
          | |- context [dict_get d ?f] => destruct (dict_get d f)
          end; [|intros H; injection H as <-; reflexivity]).
  discriminate.
Qed.

(** *** The orchestrator *)

(** C3, as the code has it.  When the child of a stage exits with a
    non-zero status, the run stops there with a [RuntimeError], at every
    stage, whose message is the headline of the stage, a line feed, and
    the standard error of the child as captured. *)
Theorem stage_failure (s : stage) (inp out : string) (target_i : float)
  (audio_bitrate : string) (st st_s : state) (cmd : list string)
  rc out_text err w :
  reaches s inp out target_i audio_bitrate st cmd st_s ->
  spawn cmd (world st_s) = (Exited rc out_text err, w) ->
  rc <> 0%Z ->
  clean_video inp out target_i audio_bitrate st
  = (inl (RuntimeError (stage_headline s ++ nl ++ err)),
     {| world := w; trace := trace st_s ++ [cmd] |}).
Proof.
  intros Hr Hs Hrc. apply Z.eqb_neq in Hrc.
  destruct s; cbn [reaches stage_headline] in *.
  - destruct Hr as [-> ->]. unfold clean_video.
    step (ffprobe_json_exited _ _ Hs). now rewrite Hrc.
  - destruct Hr as [Hp ->]. rewrite (clean_video_probed _ _ _ Hp).
    step (measure_loudnorm_exited _ _ _ _ Hs).
    unfold measurement_of. now rewrite Hrc.
  - destruct Hr as (stats & Hm & ->). rewrite (clean_video_measured _ _ Hm).
    unfold encode_step. step (run_exited _ _ Hs).
    cbn [returncode stderr]. now rewrite Hrc.
Qed.

(** C2, as the code has it.  When the probed descriptor has no stream of
    codec type "audio", the run fails with the [RuntimeError] "Input has
    no audio stream." and the probe is the only command it has spawned:
    neither the analysis nor the encode is invoked. *)
Theorem no_audio_stream_failure (inp out : string) (target_i : float)
  (audio_bitrate : string) (st st1 : state) (meta : json)
  (streams : list json) :
  ffprobe_json inp st = (inr meta, st1) ->
  media_descriptor meta streams ->
  filter (codec_type_is "audio") streams = [] ->
  clean_video inp out target_i audio_bitrate st
  = (inl (RuntimeError "Input has no audio stream."), st1)
  /\ trace st1 = trace st ++ [ffprobe_cmd inp].
Proof.
  intros Hp Hm Hnone. split; [|eapply ffprobe_json_trace, Hp].
  unfold clean_video. step Hp. unfold bind, lift.
  rewrite (pick_audio_stream_find Hm), (find_no_match _ _ Hnone).
  reflexivity.
Qed.

(** C4, as the code has it.  After an analysis pass that exited with
    status 0: if its diagnostic text has no brace-delimited block the run
    fails with a [RuntimeError] that quotes the text; if the block parses
    to a mapping that lacks one of the five fields the run fails with the
    [KeyError] of the first missing field.  Either way the probe and the
    analysis are the only commands spawned. *)
Theorem unusable_report_failure (inp out : string) (target_i : float)
  (audio_bitrate : string) (st st1 : state) (cmd : list string)
  out_text err w :
  reaches Measure inp out target_i audio_bitrate st cmd st1 ->
  spawn cmd (world st1) = (Exited 0 out_text err, w) ->
  let st2 := {| world := w; trace := trace st ++ [ffprobe_cmd inp; cmd] |} in
  (brace_span err = None ->
   clean_video inp out target_i audio_bitrate st
   = (inl (RuntimeError
             ("Could not parse loudnorm json from ffmpeg output:"
                ++ nl ++ err)), st2))
  /\ (forall block d k,
        brace_span err = Some block ->
        json_loads block = inr (JObj d) ->
        first_missing d = Some k ->
        clean_video inp out target_i audio_bitrate st
        = (inl (KeyError k), st2)).
Proof.
  intros [Hp ->] Hs st2.
  assert (Hrun : clean_video inp out target_i audio_bitrate st
                 = (match measurement_of 0 err with
                    | inl e => inl e
                    | inr stats => fst (encode_step inp out target_i
                                          audio_bitrate stats st2)
                    end,
                    match measurement_of 0 err with
                    | inl e => st2
                    | inr stats => snd (encode_step inp out target_i
                                          audio_bitrate stats st2)
                    end)).
  { rewrite (clean_video_probed _ _ _ Hp).
    step (measure_loudnorm_exited _ _ _ _ Hs).
    rewrite (probed_trace Hp), <- app_assoc. fold st2.
    destruct (measurement_of 0 err); [reflexivity|].
    now rewrite <- surjective_pairing. }
  rewrite Hrun. unfold measurement_of. cbn [Z.eqb].
  rewrite search_is_brace_span. split.
  - intros ->. reflexivity.
  - intros block d k -> -> Hk. now rewrite (stats_of_report_missing _ Hk).
Qed.

Lemma loudnorm_apply_example :
  float_str (-16)%float = "-16.0" ->
  loudnorm_apply (-16)%float example_stats
  = ("loudnorm=I=-16.0:TP=-1.5:LRA=11:measured_I=-23.1:measured_TP=-2.0:"
     ++ "measured_LRA=7.3:measured_thresh=-33.5:offset=1.2:linear=true:"
     ++ "print_format=summary")%string.
Proof. intros H. unfold loudnorm_apply. rewrite H. reflexivity. Qed.

(** C1, as the code has it.  With the target -16.0 and the statistics of
    the example, the loudnorm expression of the apply pass is made of the
    nine listed parameters, in that order, and of a tenth one,
    [print_format=summary]; it is the expression appended to the base
    chain in the filter argument of the encode that [clean_video]
    spawns. *)
Theorem apply_filter_parameters :
  float_str (-16)%float = "-16.0" ->
  loudnorm_params (loudnorm_apply (-16)%float example_stats)
  = Some (listed_params ++ ["print_format=summary"])
  /\ (forall inp out audio_bitrate (st st2 : state),
        measured inp (-16)%float st example_stats st2 ->
        trace (snd (clean_video inp out (-16)%float audio_bitrate st))
        = trace st2
            ++ [clean_cmd inp out
                  (build_base_filters ++ ","
                     ++ "loudnorm=I=-16.0:TP=-1.5:LRA=11:"
                     ++ "measured_I=-23.1:measured_TP=-2.0:"
                     ++ "measured_LRA=7.3:measured_thresh=-33.5:"
                     ++ "offset=1.2:linear=true:print_format=summary")
                  audio_bitrate]).
Proof.
  intros Hf. split.
  - rewrite (loudnorm_apply_example Hf). reflexivity.
  - intros inp out audio_bitrate st st2 Hm.
    rewrite (clean_video_measured _ _ Hm), encode_step_trace.
    unfold apply_af. now rewrite (loudnorm_apply_example Hf).
Qed.

Lemma base_chain_measure (target_i : float) :
  base_chain (measure_af build_base_filters target_i) = build_base_filters.
Proof. reflexivity. Qed.

Lemma base_chain_apply (target_i : float) (stats : LoudnormStats) :
  base_chain (apply_af build_base_filters target_i stats)
  = build_base_filters.
Proof. reflexivity. Qed.

(** The commands a run spawns: the probe; then, when an audio stream was
    picked, the analysis; then, when statistics came out of it, the
    encode. *)
Lemma clean_video_spawns (inp out : string) (target_i : float)
  (audio_bitrate : string) (st : state) :
  let P := ffprobe_cmd inp in
  let M := measure_cmd inp (measure_af build_base_filters target_i) in
  let final := snd (clean_video inp out target_i audio_bitrate st) in
  trace final = trace st ++ [P]
  \/ trace final = trace st ++ [P; M]
  \/ exists stats,
      trace final
      = trace st
          ++ [P; M;
              clean_cmd inp out
                (apply_af build_base_filters target_i stats) audio_bitrate].
Proof.
  intros P M final. subst final.
  destruct (ffprobe_json inp st) as [[e|meta] st1] eqn:Hp.
  { left. unfold clean_video. step Hp. eapply ffprobe_json_trace, Hp. }
  destruct (pick_audio_stream meta) as [e|[astream|]] eqn:Ha.
  { left. unfold clean_video. step Hp. unfold bind, lift. rewrite Ha.
    eapply ffprobe_json_trace, Hp. }
  2:{ left. unfold clean_video. step Hp. unfold bind, lift. rewrite Ha.
      eapply ffprobe_json_trace, Hp. }
  assert (Hprobed : probed inp st st1) by (exists meta, astream; auto).
  right. rewrite (clean_video_probed _ _ _ Hprobed).
  destruct (measure_loudnorm inp build_base_filters target_i st1)
    as [[e|stats] st2] eqn:Hm.
  - left. step Hm. cbn [snd].
    rewrite (measure_loudnorm_trace _ _ _ _ Hm), (probed_trace Hprobed).
    now rewrite <- app_assoc.
  - right. exists stats. step Hm. rewrite encode_step_trace.
    rewrite (measure_loudnorm_trace _ _ _ _ Hm), (probed_trace Hprobed).
    now rewrite <- !app_assoc.
Qed.

Lemma clean_video_measured_trace (inp out : string) (target_i : float)
  (audio_bitrate : string) (st st2 : state) (stats : LoudnormStats) :
  measured inp target_i st stats st2 ->
  trace (snd (clean_video inp out target_i audio_bitrate st))
  = trace st
      ++ [ffprobe_cmd inp;
          measure_cmd inp (measure_af build_base_filters target_i);
          clean_cmd inp out (apply_af build_base_filters target_i stats)
            audio_bitrate].
Proof.
  intros Hm.
  rewrite (clean_video_measured _ _ Hm), encode_step_trace.
  rewrite (measured_trace Hm). now rewrite <- app_assoc.
Qed.

(** C5.  In every run, the filter argument of the analysis command and
    the filter argument of the encode command embed the same base chain,
    character for character: the text before the loudnorm stage is
    [build_base_filters] in both. *)
Theorem base_chain_shared (inp out : string) (target_i : float)
  (audio_bitrate : string) (st : state) :
  exists spawned,
    trace (snd (clean_video inp out target_i audio_bitrate st))
    = trace st ++ spawned
    /\ (forall m_af a_af,
          In (measure_cmd inp m_af) spawned ->
          In (clean_cmd inp out a_af audio_bitrate) spawned ->
          base_chain m_af = base_chain a_af
          /\ base_chain m_af = build_base_filters
          /\ (exists stage_m, m_af = (build_base_filters ++ "," ++ stage_m)%string)
          /\ (exists stage_a, a_af = (build_base_filters ++ "," ++ stage_a)%string))
    /\ (forall stats st2,
          measured inp target_i st stats st2 ->
          In (measure_cmd inp (measure_af build_base_filters target_i))
            spawned
          /\ In (clean_cmd inp out
                   (apply_af build_base_filters target_i stats)
                   audio_bitrate) spawned).
Proof.
  destruct (clean_video_spawns inp out target_i audio_bitrate st)
    as [H|[H|[stats H]]]; cbv zeta in H;
    eexists; (split; [exact H|]); split.
  - intros m_af a_af [Hm|[]]. discriminate Hm.
  - intros stats st2 Hm. exfalso.
    rewrite (clean_video_measured_trace out audio_bitrate Hm) in H.
    apply app_inv_head in H. discriminate H.
  - intros m_af a_af _ [Ha|[Ha|[]]]; discriminate Ha.
  - intros stats st2 Hm. exfalso.
    rewrite (clean_video_measured_trace out audio_bitrate Hm) in H.
    apply app_inv_head in H. discriminate H.
  - intros m_af a_af [Hm|[Hm|[Hm|[]]]] [Ha|[Ha|[Ha|[]]]];
      try discriminate Hm; try discriminate Ha.
    injection Hm as <-. injection Ha as <-.
    rewrite base_chain_measure, base_chain_apply.
    repeat split; eexists; reflexivity.
  - intros stats' st2 Hm.
    rewrite (clean_video_measured_trace out audio_bitrate Hm) in H.
    apply app_inv_head in H. rewrite <- H.
    split; [right; left; reflexivity|right; right; left; reflexivity].
Qed.

(** C10.  Whenever a run gets to the encode, the command it spawns maps
    the first video stream with the copy codec.  What has been asked of
    the probed descriptor by then is an audio stream and nothing else:
    no hypothesis is on its video streams. *)
Theorem encode_maps_video_unconditionally (inp out : string)
  (target_i : float) (audio_bitrate : string) (st st1 st2 : state)
  (meta astream : json) (stats : LoudnormStats) :
  ffprobe_json inp st = (inr meta, st1) ->
  pick_audio_stream meta = inr (Some astream) ->
  measure_loudnorm inp build_base_filters target_i st1 = (inr stats, st2) ->
  let cmd := clean_cmd inp out
               (apply_af build_base_filters target_i stats) audio_bitrate in
  trace (snd (clean_video inp out target_i audio_bitrate st))
  = trace st2 ++ [cmd]
  /\ video_copy_mapped cmd.
Proof.
  intros Hp Ha Hm cmd.
  assert (Hmeasured : measured inp target_i st stats st2).
  { exists st1. split; [exists meta, astream; auto|exact Hm]. }
  split.
  - now rewrite (clean_video_measured _ _ Hmeasured), encode_step_trace.
  - exists ["ffmpeg"; "-hide_banner"; "-nostdin"; "-y"; "-i"; inp].
    eexists. reflexivity.
Qed.

End Correctness.

(** ** Concrete runs *)

(** The invoker on a child that exits with status 1. *)
Lemma run_returns_completed_process_witness :
  let cmd := Fake.probe_cmd in
  let st := Fake.start Fake.probe_fails in
  spawn cmd (world st)
  = (Exited 1 "" "clip.mp4: No such file or directory", [])
  /\ (run cmd st
      = (inr {| args := cmd; returncode := 1; stdout := "";
                stderr := "clip.mp4: No such file or directory" |},
         Fake.after [cmd] Fake.probe_fails)
      /\ (forall e, fst (run cmd st) <> inl e)).
Proof.
  split; [reflexivity|].
  apply (@run_returns_completed_process Fake.runtime). reflexivity.
Defined.

(** The first audio stream of a descriptor that starts with a video
    stream. *)
Lemma pick_audio_stream_first_witness :
  let streams := [Fake.video_stream; Fake.first_audio; Fake.second_audio;
                  Fake.subtitle_stream] in
  media_descriptor Fake.mixed streams
  /\ pick_audio_stream Fake.mixed = inr (Some Fake.first_audio).
Proof.
  assert (H : media_descriptor Fake.mixed
                [Fake.video_stream; Fake.first_audio; Fake.second_audio;
                 Fake.subtitle_stream]) by (split; reflexivity).
  split; [exact H|].
  apply (proj1 (proj2 (pick_audio_stream_first H)))
    with (pre := [Fake.video_stream])
         (post := [Fake.second_audio; Fake.subtitle_stream]);
    reflexivity.
Defined.

(** The scan on a log with a closing brace after the report, and the
    measurer on a log that holds the example report. *)
Lemma greedy_brace_scan_witness :
  Re.search LOUDNORM_JSON_RE "log { a } tail } end" = Some "{ a } tail }"
  /\ fst (measure_loudnorm (R := Fake.runtime) "clip.mp4" build_base_filters
            (-16)%float (Fake.after [Fake.probe_cmd] Fake.all_good))
     = inr example_stats.
Proof.
  destruct (@greedy_brace_scan Fake.runtime) as (Hscan & Hparse & Hex).
  split.
  - rewrite Hscan. exact Hex.
  - rewrite (Hparse "clip.mp4" build_base_filters (-16)%float
               (Fake.after [Fake.probe_cmd] Fake.all_good)
               "" (Fake.analysis_log Fake.report_text)
               [Exited 0 "" "Input Integrated: -23.1 LUFS"] eq_refl).
    reflexivity.
Defined.

(** Each of the three children failing in turn. *)
Lemma stage_failure_witness :
  fst (Fake.clean Fake.probe_fails)
  = inl (RuntimeError
           ("ffprobe failed:" ++ nl ++ "clip.mp4: No such file or directory"))
  /\ fst (Fake.clean Fake.measure_fails)
     = inl (RuntimeError
              ("ffmpeg loudnorm measure failed:" ++ nl ++ "Conversion failed!"))
  /\ fst (Fake.clean Fake.encode_fails)
     = inl (RuntimeError
              ("ffmpeg clean failed:" ++ nl ++ "Error opening output file")).
Proof.
  assert (Hone : (1 <> 0)%Z) by discriminate.
  assert (Hprobed :
            forall w,
              hd_error w = Some (Exited 0 Fake.audio_only_text "") ->
              probed "clip.mp4" (Fake.start w) (Fake.after [Fake.probe_cmd] w)).
  { intros [|o w] Hw; [discriminate|]. injection Hw as ->.
    exists Fake.audio_only, (JObj [("codec_type", JStr "audio")]).
    split; reflexivity. }
  split; [|split].
  - exact (f_equal fst
             (@stage_failure Fake.runtime Probe "clip.mp4" "out.mp4"
                (-16)%float "192k" (Fake.start Fake.probe_fails)
                (Fake.start Fake.probe_fails) Fake.probe_cmd 1 ""
                "clip.mp4: No such file or directory" []
                (conj eq_refl eq_refl) eq_refl Hone)).
  - exact (f_equal fst
             (@stage_failure Fake.runtime Measure "clip.mp4" "out.mp4"
                (-16)%float "192k" (Fake.start Fake.measure_fails)
                (Fake.after [Fake.probe_cmd] Fake.measure_fails)
                Fake.analysis_cmd 1 "" "Conversion failed!" []
                (conj (Hprobed Fake.measure_fails eq_refl) eq_refl)
                eq_refl Hone)).
  - assert (Hm : measured "clip.mp4" (-16)%float
                   (Fake.start Fake.encode_fails) example_stats
                   (Fake.after [Fake.probe_cmd; Fake.analysis_cmd]
                      Fake.encode_fails)).
    { exists (Fake.after [Fake.probe_cmd] Fake.encode_fails).
      split; [apply Hprobed|]; reflexivity. }
    exact (f_equal fst
             (@stage_failure Fake.runtime Encode "clip.mp4" "out.mp4"
                (-16)%float "192k" (Fake.start Fake.encode_fails)
                (Fake.after [Fake.probe_cmd; Fake.analysis_cmd]
                   Fake.encode_fails)
                Fake.encode_cmd 1 "" "Error opening output file" []
                (ex_intro _ example_stats (conj Hm eq_refl)) eq_refl Hone)).
Defined.

(** C3, as the specification has it, fails: the three failures are of one
    and the same class, [RuntimeError]; the failing stage shows in the
    message only. *)
Lemma stage_errors_share_one_type :
  raised_type (fst (Fake.clean Fake.probe_fails)) = Some "RuntimeError"
  /\ raised_type (fst (Fake.clean Fake.measure_fails)) = Some "RuntimeError"
  /\ raised_type (fst (Fake.clean Fake.encode_fails)) = Some "RuntimeError"
  /\ ~ (exists probe_error measurement_error encode_error,
          probe_error <> measurement_error
          /\ measurement_error <> encode_error
          /\ probe_error <> encode_error
          /\ raised_type (fst (Fake.clean Fake.probe_fails))
             = Some probe_error
          /\ raised_type (fst (Fake.clean Fake.measure_fails))
             = Some measurement_error
          /\ raised_type (fst (Fake.clean Fake.encode_fails))
             = Some encode_error).
Proof.
  repeat split; try reflexivity.
  intros (p & m & e & Hpm & _ & _ & Hp & Hm & _).
  apply Hpm.
  change (Some "RuntimeError" = Some p) in Hp.
  change (Some "RuntimeError" = Some m) in Hm.
  congruence.
Qed.

(** An input with a video stream and no audio stream. *)
Lemma no_audio_stream_failure_witness :
  Fake.clean Fake.silent_film
  = (inl (RuntimeError "Input has no audio stream."),
     Fake.after [Fake.probe_cmd] Fake.silent_film)
  /\ trace (Fake.after [Fake.probe_cmd] Fake.silent_film)
     = trace (Fake.start Fake.silent_film) ++ [Fake.probe_cmd].
Proof.
  apply (@no_audio_stream_failure Fake.runtime "clip.mp4" "out.mp4"
           (-16)%float "192k" (Fake.start Fake.silent_film)
           (Fake.after [Fake.probe_cmd] Fake.silent_film) Fake.video_only
           [JObj [("codec_type", JStr "video")]]).
  - reflexivity.
  - split; reflexivity.
  - reflexivity.
Defined.

(** C2, as the specification has it, fails: what is raised for an input
    without audio is a [RuntimeError], the class raised for a failed probe
    as well; no class of its own names the condition. *)
Lemma no_audio_error_is_a_runtime_error :
  fst (Fake.clean Fake.silent_film)
  = inl (RuntimeError "Input has no audio stream.")
  /\ raised_type (fst (Fake.clean Fake.silent_film))
     <> Some "NoAudioStreamError"
  /\ raised_type (fst (Fake.clean Fake.silent_film))
     = raised_type (fst (Fake.clean Fake.probe_fails)).
Proof. repeat split; try reflexivity. discriminate. Qed.

(** A log without a report, and a report without [input_lra]. *)
Lemma unusable_report_failure_witness :
  fst (Fake.clean Fake.no_report)
  = inl (RuntimeError
           ("Could not parse loudnorm json from ffmpeg output:"
              ++ nl ++ "size=N/A time=00:00:05.00"))
  /\ Fake.clean Fake.field_missing
     = (inl (KeyError "input_lra"),
        Fake.after [Fake.probe_cmd; Fake.analysis_cmd] Fake.field_missing).
Proof.
  assert (Hprobed :
            forall w,
              hd_error w = Some (Exited 0 Fake.audio_only_text "") ->
              probed "clip.mp4" (Fake.start w) (Fake.after [Fake.probe_cmd] w)).
  { intros [|o w] Hw; [discriminate|]. injection Hw as ->.
    exists Fake.audio_only, (JObj [("codec_type", JStr "audio")]).
    split; reflexivity. }
  split.
  - refine (f_equal fst
              (proj1 (@unusable_report_failure Fake.runtime "clip.mp4"
                        "out.mp4" (-16)%float "192k"
                        (Fake.start Fake.no_report)
                        (Fake.after [Fake.probe_cmd] Fake.no_report)
                        Fake.analysis_cmd "" "size=N/A time=00:00:05.00" []
                        (conj (Hprobed Fake.no_report eq_refl) eq_refl)
                        eq_refl) _)).
    reflexivity.
  - refine (proj2 (@unusable_report_failure Fake.runtime "clip.mp4"
                     "out.mp4" (-16)%float "192k"
                     (Fake.start Fake.field_missing)
                     (Fake.after [Fake.probe_cmd] Fake.field_missing)
                     Fake.analysis_cmd ""
                     (Fake.analysis_log Fake.short_report_text) []
                     (conj (Hprobed Fake.field_missing eq_refl) eq_refl)
                     eq_refl)
              Fake.short_report_text
              [("input_i", JStr "-23.1"); ("input_tp", JStr "-2.0");
               ("input_thresh", JStr "-33.5"); ("target_offset", JStr "1.2")]
              "input_lra" _ _ _); reflexivity.
Defined.

(** C4, as the specification has it, fails: a report without one of its
    fields ends the run with a [KeyError], not with the error the other
    measurement failures raise. *)
Lemma missing_field_raises_key_error :
  fst (Fake.clean Fake.field_missing) = inl (KeyError "input_lra")
  /\ raised_type (fst (Fake.clean Fake.field_missing))
     <> Some "MeasurementError"
  /\ raised_type (fst (Fake.clean Fake.field_missing))
     <> raised_type (fst (Fake.clean Fake.no_report))
  /\ raised_type (fst (Fake.clean Fake.field_missing))
     <> raised_type (fst (Fake.clean Fake.measure_fails)).
Proof. repeat split; try reflexivity; discriminate. Qed.

(** The example of section 8, run to its end. *)
Lemma apply_filter_parameters_witness :
  float_str (Runtime := Fake.runtime) (-16)%float = "-16.0"
  /\ loudnorm_params
       (loudnorm_apply (R := Fake.runtime) (-16)%float example_stats)
     = Some (listed_params ++ ["print_format=summary"])
  /\ trace (snd (Fake.clean Fake.all_good))
     = [Fake.probe_cmd; Fake.analysis_cmd; Fake.encode_cmd].
Proof.
  assert (Hf : float_str (Runtime := Fake.runtime) (-16)%float = "-16.0")
    by reflexivity.
  destruct (@apply_filter_parameters Fake.runtime Hf) as [Hparams Hrun].
  split; [exact Hf|]. split; [exact Hparams|].
  refine (eq_trans
            (Hrun "clip.mp4" "out.mp4" "192k" (Fake.start Fake.all_good)
               (Fake.after [Fake.probe_cmd; Fake.analysis_cmd] Fake.all_good)
               _) _); [|reflexivity].
  exists (Fake.after [Fake.probe_cmd] Fake.all_good).
  split; [|reflexivity].
  exists Fake.audio_only, (JObj [("codec_type", JStr "audio")]).
  split; reflexivity.
Defined.

(** C1, as the specification has it, fails: the expression has a tenth
    parameter, which is not one of the nine listed. *)
Lemma apply_filter_has_a_tenth_parameter :
  loudnorm_params
    (loudnorm_apply (R := Fake.runtime) (-16)%float example_stats)
  = Some (listed_params ++ ["print_format=summary"])
  /\ ~ In "print_format=summary" listed_params
  /\ loudnorm_params
       (loudnorm_apply (R := Fake.runtime) (-16)%float example_stats)
     <> Some listed_params.
Proof.
  repeat split; try reflexivity.
  - cbn [listed_params In]. intros H.
    repeat (destruct H as [H|H]; [discriminate H|]). exact H.
  - discriminate.
Qed.

(** Both filter arguments of a full run. *)
Lemma base_chain_shared_witness :
  base_chain (measure_af (R := Fake.runtime) build_base_filters (-16)%float)
  = base_chain
      (apply_af (R := Fake.runtime) build_base_filters (-16)%float
         example_stats)
  /\ trace (snd (Fake.clean Fake.all_good))
     = [Fake.probe_cmd; Fake.analysis_cmd; Fake.encode_cmd].
Proof.
  destruct (@base_chain_shared Fake.runtime "clip.mp4" "out.mp4" (-16)%float
              "192k" (Fake.start Fake.all_good))
    as (spawned & Htrace & Hsame & _).
  assert (Hrun : trace (snd (Fake.clean Fake.all_good))
                 = [Fake.probe_cmd; Fake.analysis_cmd; Fake.encode_cmd])
    by reflexivity.
  split; [|exact Hrun].
  unfold Fake.clean in Hrun. rewrite Hrun in Htrace.
  cbn [Fake.start trace app] in Htrace. subst spawned.
  apply Hsame; [right; left|right; right; left]; reflexivity.
Defined.

(** An input without a video stream: the encode still maps one. *)
Lemma encode_maps_video_unconditionally_witness :
  List.filter (codec_type_is "video")
    [JObj [("codec_type", JStr "audio")]] = []
  /\ stream_list Fake.audio_only = Some [JObj [("codec_type", JStr "audio")]]
  /\ trace (snd (Fake.clean Fake.all_good))
     = trace (Fake.after [Fake.probe_cmd; Fake.analysis_cmd] Fake.all_good)
         ++ [Fake.encode_cmd]
  /\ video_copy_mapped Fake.encode_cmd.
Proof.
  split; [reflexivity|]. split; [reflexivity|].
  apply (@encode_maps_video_unconditionally Fake.runtime "clip.mp4" "out.mp4"
           (-16)%float "192k" (Fake.start Fake.all_good)
           (Fake.after [Fake.probe_cmd] Fake.all_good)
           (Fake.after [Fake.probe_cmd; Fake.analysis_cmd] Fake.all_good)
           Fake.audio_only (JObj [("codec_type", JStr "audio")])
           example_stats); reflexivity.
Defined.


(** * Beyond the claims *)

(** ** Text *)

Lemma append_assoc (a b c : string) : ((a ++ b) ++ c = a ++ b ++ c)%string.
Proof. induction a as [|x a IH]; cbn; [reflexivity|now rewrite IH]. Qed.

Lemma append_empty_r (a : string) : (a ++ "")%string = a.
Proof. induction a as [|x a IH]; cbn; [reflexivity|now rewrite IH]. Qed.

Lemma length_append (a b : string) :
  String.length (a ++ b) = String.length a + String.length b.
Proof. induction a as [|x a IH]; cbn; [reflexivity|now rewrite IH]. Qed.

Lemma substring_prefix (a b : string) :
  substring 0 (String.length a) (a ++ b) = a.
Proof.
  induction a as [|x a IH]; cbn.
  - now destruct b.
  - now rewrite IH.
Qed.

Lemma substring_whole (a : string) : substring 0 (String.length a) a = a.
Proof. rewrite <- (append_empty_r a) at 2. apply substring_prefix. Qed.

Lemma substring_skip (a b : string) (n : nat) :
  substring (String.length a) n (a ++ b) = substring 0 n b.
Proof. induction a as [|x a IH]; cbn; [reflexivity|exact IH]. Qed.

Lemma lacks_cons (c x : ascii) (s : string) :
  lacks c (String x s) <-> x <> c /\ lacks c s.
Proof.
  unfold lacks. cbn [index_of].
  destruct (Ascii.eqb_spec x c) as [->|Hne].
  - split; [discriminate|]. intros [H _]. now contradiction H.
  - destruct (index_of c s); cbn [option_map]; split; try discriminate;
      auto.
    intros [_ H]. discriminate H.
Qed.

Lemma lacks_append (c : ascii) (a b : string) :
  lacks c (a ++ b) <-> lacks c a /\ lacks c b.
Proof.
  induction a as [|x a IH]; cbn [append].
  - split; [now split|now intros [_ H]].
  - rewrite !lacks_cons, IH. tauto.
Qed.

Lemma rindex_none_iff (c : ascii) (s : string) :
  rindex_of c s = None <-> lacks c s.
Proof.
  induction s as [|x s IH].
  - split; reflexivity.
  - rewrite lacks_cons, <- IH. cbn [rindex_of].
    destruct (rindex_of c s) as [j|].
    + split; [discriminate|]. intros [_ H]. discriminate H.
    + destruct (Ascii.eqb_spec x c) as [->|Hne].
      * split; [discriminate|]. intros [H _]. now contradiction H.
      * split; auto.
Qed.

(** A text splits at the first occurrence of a character, if it has one. *)
Lemma split_at_first (c : ascii) (s : string) :
  lacks c s
  \/ exists pre rest, s = (pre ++ String c rest)%string /\ lacks c pre.
Proof.
  induction s as [|x s IH].
  - left. reflexivity.
  - destruct (Ascii.eqb_spec x c) as [->|Hne].
    + right. exists ""%string, s. split; reflexivity.
    + destruct IH as [H|(pre & rest & -> & H)].
      * left. now apply lacks_cons.
      * right. exists (String x pre), rest. split; [reflexivity|].
        now apply lacks_cons.
Qed.

(** And at the last one. *)
Lemma split_at_last (c : ascii) (s : string) :
  lacks c s
  \/ exists rest post, s = (rest ++ String c post)%string /\ lacks c post.
Proof.
  induction s as [|x s IH].
  - left. reflexivity.
  - destruct IH as [H|(rest & post & -> & H)].
    + destruct (Ascii.eqb_spec x c) as [->|Hne].
      * right. exists ""%string, s. split; [reflexivity|exact H].
      * left. now apply lacks_cons.
    + right. exists (String x rest), post. split; [reflexivity|exact H].
Qed.

Lemma rindex_of_last (c : ascii) (mid post : string) :
  lacks c post ->
  rindex_of c (mid ++ String c post) = Some (String.length mid).
Proof.
  intros H. induction mid as [|x mid IH]; cbn [append rindex_of].
  - apply rindex_none_iff in H. rewrite H, Ascii.eqb_refl. reflexivity.
  - now rewrite IH.
Qed.

Lemma rindex_split (c : ascii) (s : string) (j : nat) :
  rindex_of c s = Some j ->
  exists mid post,
    s = (mid ++ String c post)%string /\ String.length mid = j
    /\ lacks c post.
Proof.
  intros Hj. destruct (split_at_last c s) as [H|(mid & post & -> & H)].
  - apply rindex_none_iff in H. congruence.
  - exists mid, post. rewrite (rindex_of_last mid H) in Hj.
    injection Hj as <-. auto.
Qed.

(** ** The scan for the report, [LOUDNORM_JSON_RE.search] *)

Lemma search_skips (pre s : string) :
  lacks "{"%char pre ->
  Re.search LOUDNORM_JSON_RE (pre ++ s) = Re.search LOUDNORM_JSON_RE s.
Proof.
  induction pre as [|x pre IH]; intros H; [reflexivity|].
  apply lacks_cons in H as [Hx H].
  cbn [append Re.search]. rewrite match_here_loudnorm.
  destruct (Ascii.eqb_spec "{"%char x) as [<-|_]; [now contradiction Hx|].
  now apply IH.
Qed.

Lemma search_at_brace (mid post : string) :
  lacks "}"%char post ->
  Re.search LOUDNORM_JSON_RE (String "{" (mid ++ String "}" post))
  = Some (String "{" (mid ++ "}")).
Proof.
  intros H. cbn [Re.search]. rewrite match_here_loudnorm, Ascii.eqb_refl.
  rewrite (rindex_of_last mid H). cbn [option_map substring].
  f_equal. f_equal.
  change (String "}" post) with ("}" ++ post)%string.
  rewrite <- append_assoc.
  replace (S (String.length mid)) with (String.length (mid ++ "}"))
    by (rewrite length_append; cbn; lia).
  apply substring_prefix.
Qed.

Lemma search_block (pre mid post : string) :
  lacks "{"%char pre ->
  lacks "}"%char post ->
  Re.search LOUDNORM_JSON_RE (pre ++ String "{" (mid ++ String "}" post))
  = Some (String "{" (mid ++ "}")).
Proof.
  intros Hpre Hpost. rewrite (search_skips _ Hpre).
  now apply search_at_brace.
Qed.

Lemma search_decompose (text block : string) :
  Re.search LOUDNORM_JSON_RE text = Some block ->
  exists pre mid post,
    text = (pre ++ String "{" (mid ++ String "}" post))%string
    /\ block = String "{" (mid ++ "}")
    /\ lacks "{"%char pre /\ lacks "}"%char post.
Proof.
  intros Hs.
  destruct (split_at_first "{"%char text) as [H|(pre & rest & -> & Hpre)].
  - exfalso. rewrite <- (append_empty_r text) in Hs.
    rewrite (search_skips _ H) in Hs. discriminate Hs.
  - destruct (split_at_last "}"%char rest) as [H|(mid & post & -> & Hpost)].
    + exfalso. rewrite (search_skips _ Hpre) in Hs.
      rewrite search_without_close in Hs; [discriminate|].
      apply rindex_none_iff, lacks_cons. split; [discriminate|exact H].
    + rewrite (search_block _ Hpre Hpost) in Hs. injection Hs as <-.
      exists pre, mid, post. auto.
Qed.

(** X1.  What the scan returns begins with an opening brace and ends with a
    closing one; the text before it has no opening brace and the text after
    it no closing brace; and scanning the block again gives the block. *)
Theorem report_block_shape (text block : string) :
  Re.search LOUDNORM_JSON_RE text = Some block ->
  (exists pre mid post,
      text = (pre ++ block ++ post)%string
      /\ block = ("{" ++ mid ++ "}")%string
      /\ lacks "{"%char pre /\ lacks "}"%char post)
  /\ Re.search LOUDNORM_JSON_RE block = Some block.
Proof.
  intros Hs.
  destruct (search_decompose _ Hs) as (pre & mid & post & -> & -> & Hpre & Hpost).
  split.
  - exists pre, mid, post. repeat split; auto.
    cbn [append]. now rewrite append_assoc.
  - exact (search_at_brace mid (post := "") eq_refl).
Qed.

(** X2.  Log text around the report does not disturb the scan as long as
    no opening brace comes before the report and no closing brace after
    it; whatever lies between the two braces, further braces included, is
    returned with them. *)
Theorem report_block_found (pre mid post : string) :
  lacks "{"%char pre ->
  lacks "}"%char post ->
  Re.search LOUDNORM_JSON_RE (pre ++ "{" ++ mid ++ "}" ++ post)
  = Some ("{" ++ mid ++ "}")%string.
Proof. intros Hpre Hpost. now apply search_block. Qed.

(** X3.  The scan finds nothing exactly when no opening brace of the text
    has a closing brace somewhere after it. *)
Theorem no_report_block_iff (text : string) :
  Re.search LOUDNORM_JSON_RE text = None
  <-> ~ (exists a mid c, text = (a ++ "{" ++ mid ++ "}" ++ c)%string).
Proof.
  split.
  - intros Hnone (a & mid & c & ->).
    assert (Hsome : exists pre mid' post,
               (a ++ "{" ++ mid ++ "}" ++ c)%string
               = (pre ++ String "{" (mid' ++ String "}" post))%string
               /\ lacks "{"%char pre /\ lacks "}"%char post).
    { destruct (split_at_first "{"%char a) as [Ha|(pre & a' & -> & Hpre)];
        destruct (split_at_last "}"%char c) as [Hc|(c' & post & -> & Hpost)].
      - exists a, mid, c. auto.
      - exists a, (mid ++ String "}" c')%string, post.
        repeat split; auto. cbn [append]. now rewrite append_assoc.
      - exists pre, (a' ++ String "{" mid)%string, c.
        repeat split; auto. cbn [append]. now rewrite !append_assoc.
      - exists pre, (a' ++ String "{" (mid ++ String "}" c'))%string, post.
        repeat split; auto. cbn [append]. rewrite !append_assoc.
        cbn [append]. now rewrite append_assoc. }
    destruct Hsome as (pre & mid' & post & E & Hpre & Hpost).
    rewrite E, (search_block _ Hpre Hpost) in Hnone. discriminate Hnone.
  - intros Hno. destruct (Re.search LOUDNORM_JSON_RE text) as [block|] eqn:Hs;
      [|reflexivity].
    exfalso. apply Hno.
    destruct (search_decompose _ Hs) as (pre & mid & post & -> & _).
    now exists pre, mid, post.
Qed.

(** ** The audio-stream selector on arbitrary metadata *)

Lemma audio_test (d : list (string * json)) :
  py_eq_str (match dict_get d "codec_type" with
             | Some x => x
             | None => JNull
             end) "audio"
  = codec_type_is "audio" (JObj d).
Proof.
  cbn [codec_type_is].
  destruct (dict_get d "codec_type") as [[| | | |t| |]|]; reflexivity.
Qed.

(** One turn of the loop. *)
Lemma pick_audio_loop_cons (s : json) (rest : list json) :
  pick_audio_loop (s :: rest)
  = if is_dict s
    then if codec_type_is "audio" s then inr (Some s)
         else pick_audio_loop rest
    else inl (no_get s).
Proof.
  destruct s as [| | | | | |d]; try reflexivity.
  cbn [pick_audio_loop py_get is_dict]. now rewrite audio_test.
Qed.

Lemma audio_is_dict (s : json) :
  codec_type_is "audio" s = true -> is_dict s = true.
Proof. destruct s; cbn; congruence. Qed.

Lemma pick_audio_loop_picks (l : list json) (s : json) :
  pick_audio_loop l = inr (Some s)
  <-> exists pre post,
        l = pre ++ s :: post
        /\ forallb plain_stream pre = true
        /\ codec_type_is "audio" s = true.
Proof.
  induction l as [|x l IH].
  - split; [discriminate|]. intros ([|? ?] & post & E & _); discriminate E.
  - rewrite pick_audio_loop_cons. split.
    + destruct (is_dict x) eqn:Hd; [|discriminate].
      destruct (codec_type_is "audio" x) eqn:Ha.
      * intros H. injection H as <-. exists [], l. auto.
      * intros H. apply IH in H as (pre & post & -> & Hpre & Hs).
        exists (x :: pre), post. repeat split; auto.
        cbn [forallb]. unfold plain_stream at 1. now rewrite Hd, Ha.
    + intros ([|y pre] & post & E & Hpre & Hs); injection E as <- E.
      * now rewrite (audio_is_dict _ Hs), Hs.
      * subst l. cbn [forallb] in Hpre.
        apply andb_prop in Hpre as [Hx Hpre]. unfold plain_stream in Hx.
        apply andb_prop in Hx as [Hd Ha]. apply negb_true_iff in Ha.
        rewrite Hd, Ha. apply IH. now exists pre, post.
Qed.

Lemma pick_audio_loop_finds_none (l : list json) :
  pick_audio_loop l = inr None <-> forallb plain_stream l = true.
Proof.
  induction l as [|x l IH]; [split; reflexivity|].
  rewrite pick_audio_loop_cons. cbn [forallb]. unfold plain_stream at 1.
  destruct (is_dict x); [|split; discriminate].
  destruct (codec_type_is "audio" x); [split; discriminate|exact IH].
Qed.

Lemma pick_audio_loop_raises (l : list json) (e : exn) :
  pick_audio_loop l = inl e
  <-> exists pre s post,
        l = pre ++ s :: post
        /\ forallb plain_stream pre = true
        /\ is_dict s = false
        /\ e = no_get s.
Proof.
  induction l as [|x l IH].
  - split; [discriminate|].
    intros ([|? ?] & s & post & E & _); discriminate E.
  - rewrite pick_audio_loop_cons. split.
    + destruct (is_dict x) eqn:Hd.
      * destruct (codec_type_is "audio" x) eqn:Ha; [discriminate|].
        intros H. apply IH in H as (pre & s & post & -> & Hpre & Hs & ->).
        exists (x :: pre), s, post. repeat split; auto.
        cbn [forallb]. unfold plain_stream at 1. now rewrite Hd, Ha.
      * intros H. injection H as <-. exists [], x, l. auto.
    + intros ([|y pre] & s & post & E & Hpre & Hs & ->); injection E as <- E.
      * now rewrite Hs.
      * subst l. cbn [forallb] in Hpre.
        apply andb_prop in Hpre as [Hx Hpre]. unfold plain_stream in Hx.
        apply andb_prop in Hx as [Hd Ha]. apply negb_true_iff in Ha.
        rewrite Hd, Ha. apply IH. now exists pre, s, post.
Qed.

Lemma pick_audio_stream_visits (meta : json) (l : list json) :
  visited_streams meta = Some l ->
  pick_audio_stream meta = pick_audio_loop l.
Proof.
  destruct meta as [| | | | | |d]; try discriminate.
  unfold visited_streams, pick_audio_stream. cbn [py_get].
  destruct (dict_get d "streams") as [v|].
  - destruct (py_iter v) as [e|l']; [discriminate|].
    intros H. now injection H as <-.
  - intros H. now injection H as <-.
Qed.

(** X4.  On any metadata whose stream list can be iterated, whatever the
    entries are: the selector returns an entry exactly when that entry has
    codec type "audio" and everything before it is a mapping of another
    type (what comes after it is never looked at); it returns [None]
    exactly when every entry is a mapping of another type. *)
Theorem pick_audio_stream_result (meta : json) (l : list json) :
  visited_streams meta = Some l ->
  (forall s,
      pick_audio_stream meta = inr (Some s)
      <-> exists pre post,
            l = pre ++ s :: post
            /\ forallb plain_stream pre = true
            /\ codec_type_is "audio" s = true)
  /\ (pick_audio_stream meta = inr None
      <-> forallb plain_stream l = true).
Proof.
  intros Hv. rewrite (pick_audio_stream_visits _ Hv). split.
  - intros s. apply pick_audio_loop_picks.
  - apply pick_audio_loop_finds_none.
Qed.

(** X5.  The selector raises in three cases only: the metadata is no
    mapping ([AttributeError]), its ["streams"] value cannot be iterated
    ([TypeError]), or an entry that is no mapping is met before any audio
    entry ([AttributeError] naming the type of that entry). *)
Theorem pick_audio_stream_raises (meta : json) :
  (is_dict meta = false -> pick_audio_stream meta = inl (no_get meta))
  /\ (forall d v e,
        meta = JObj d -> dict_get d "streams" = Some v ->
        py_iter v = inl e ->
        pick_audio_stream meta = inl e /\ exn_type e = "TypeError")
  /\ (forall l e,
        visited_streams meta = Some l ->
        (pick_audio_stream meta = inl e
         <-> exists pre s post,
               l = pre ++ s :: post
               /\ forallb plain_stream pre = true
               /\ is_dict s = false
               /\ e = no_get s)).
Proof.
  split; [|split].
  - destruct meta; try reflexivity. discriminate.
  - intros d v e -> Hs Hi. unfold pick_audio_stream. cbn [py_get].
    rewrite Hs, Hi. split; [reflexivity|].
    destruct v; try discriminate Hi; injection Hi as <-; reflexivity.
  - intros l e Hv. rewrite (pick_audio_stream_visits _ Hv).
    apply pick_audio_loop_raises.
Qed.


(** ** The measurer and the orchestrator, case by case *)

Section Cases.

Context {R : Runtime}.

Ltac step H := unfold bind at 1; rewrite H.

Lemma stats_of_report_ok_iff (data : json) (stats : LoudnormStats) :
  stats_of_report data = inr stats
  <-> exists d i tp lra th off,
        data = JObj d
        /\ dict_get d "input_i" = Some i
        /\ dict_get d "input_tp" = Some tp
        /\ dict_get d "input_lra" = Some lra
        /\ dict_get d "input_thresh" = Some th
        /\ dict_get d "target_offset" = Some off
        /\ stats = {| input_i := py_str i; input_tp := py_str tp;
                      input_lra := py_str lra; input_thresh := py_str th;
                      target_offset := py_str off |}.
Proof.
  split.
  - destruct data as [| | | | | |d]; try discriminate.
    unfold stats_of_report. cbn [py_getitem].
    destruct (dict_get d "input_i") as [i|] eqn:Hi; [|discriminate].
    destruct (dict_get d "input_tp") as [tp|] eqn:Htp; [|discriminate].
    destruct (dict_get d "input_lra") as [lra|] eqn:Hlra; [|discriminate].
    destruct (dict_get d "input_thresh") as [th|] eqn:Hth; [|discriminate].
    destruct (dict_get d "target_offset") as [off|] eqn:Hoff;
      [|discriminate].
    intros H. injection H as <-. exists d, i, tp, lra, th, off.
    repeat split; assumption.
  - intros (d & i & tp & lra & th & off & -> & Hi & Htp & Hlra & Hth & Hoff
            & ->).
    unfold stats_of_report. cbn [py_getitem].
    now rewrite Hi, Htp, Hlra, Hth, Hoff.
Qed.

Lemma stats_of_report_error (data : json) (e : exn) :
  stats_of_report data = inl e ->
  (is_dict data = false /\ py_getitem data "input_i" = inl e)
  \/ (exists k, In k required_fields /\ e = KeyError k).
Proof.
  destruct data as [| | | | | |d];
    try (intros H; left; split; [reflexivity|];
         injection H as <-; reflexivity).
  intros H. right. unfold stats_of_report in H. cbn [py_getitem] in H.
  unfold required_fields.
  repeat (match type of H with
          | context [dict_get ?items ?f] =>
              destruct (dict_get items f);
              [|injection H as <-; eexists; split; [|reflexivity];
                cbn [In]; repeat (first [left; reflexivity|right])]
          end).
  discriminate H.
Qed.

(** The five ways a run goes. *)
Lemma clean_video_cases (inp out : string) (target_i : float)
  (audio_bitrate : string) (st : state) :
  let result := clean_video inp out target_i audio_bitrate st in
  (exists e st1, ffprobe_json inp st = (inl e, st1) /\ result = (inl e, st1))
  \/ (exists meta e st1,
        ffprobe_json inp st = (inr meta, st1)
        /\ pick_audio_stream meta = inl e /\ result = (inl e, st1))
  \/ (exists meta st1,
        ffprobe_json inp st = (inr meta, st1)
        /\ pick_audio_stream meta = inr None
        /\ result = (inl (RuntimeError "Input has no audio stream."), st1))
  \/ (exists e st1 st2,
        probed inp st st1
        /\ measure_loudnorm inp build_base_filters target_i st1 = (inl e, st2)
        /\ result = (inl e, st2))
  \/ (exists stats st2,
        measured inp target_i st stats st2
        /\ result = encode_step inp out target_i audio_bitrate stats st2).
Proof.
  intros result. subst result.
  destruct (ffprobe_json inp st) as [[e|meta] st1] eqn:Hp.
  { left. exists e, st1. split; [reflexivity|].
    unfold clean_video. now step Hp. }
  right.
  destruct (pick_audio_stream meta) as [e|[astream|]] eqn:Ha.
  { left. exists meta, e, st1. repeat split; auto.
    unfold clean_video. step Hp. unfold bind, lift. now rewrite Ha. }
  2:{ right. left. exists meta, st1. repeat split; auto.
      unfold clean_video. step Hp. unfold bind, lift. now rewrite Ha. }
  right. right.
  assert (Hprobed : probed inp st st1) by (exists meta, astream; auto).
  rewrite (clean_video_probed _ _ _ Hprobed).
  destruct (measure_loudnorm inp build_base_filters target_i st1)
    as [[e|stats] st2] eqn:Hm.
  - left. exists e, st1, st2. repeat split; auto. now step Hm.
  - right. exists stats, st2. split; [now exists st1|]. now step Hm.
Qed.

(** X6.  Given that its child exited, the measurer returns statistics
    exactly when the status is 0, the diagnostic text has a first-brace to
    last-brace block, that block parses to a mapping, and the mapping has
    the five fields; the statistics are then [str()] of the five values,
    whatever else the mapping holds. *)
Theorem measure_loudnorm_succeeds_iff (inp base : string) (target_i : float)
  (st : state) rc out err w (stats : LoudnormStats) :
  spawn (measure_cmd inp (measure_af base target_i)) (world st)
  = (Exited rc out err, w) ->
  fst (measure_loudnorm inp base target_i st) = inr stats
  <-> rc = 0%Z
      /\ exists block d i tp lra th off,
           brace_span err = Some block
           /\ json_loads block = inr (JObj d)
           /\ dict_get d "input_i" = Some i
           /\ dict_get d "input_tp" = Some tp
           /\ dict_get d "input_lra" = Some lra
           /\ dict_get d "input_thresh" = Some th
           /\ dict_get d "target_offset" = Some off
           /\ stats = {| input_i := py_str i; input_tp := py_str tp;
                         input_lra := py_str lra; input_thresh := py_str th;
                         target_offset := py_str off |}.
Proof.
  intros Hs. rewrite (measure_loudnorm_exited _ _ _ _ Hs). cbn [fst].
  unfold measurement_of. rewrite search_is_brace_span. split.
  - destruct (Z.eqb_spec rc 0) as [->|_]; [|discriminate].
    destruct (brace_span err) as [block|]; [|discriminate].
    destruct (json_loads block) as [e|data] eqn:Hj; [discriminate|].
    intros H. apply stats_of_report_ok_iff in H
      as (d & i & tp & lra & th & off & -> & H).
    split; [reflexivity|]. exists block, d, i, tp, lra, th, off.
    destruct H as (? & ? & ? & ? & ? & ?). repeat split; auto.
  - intros (-> & block & d & i & tp & lra & th & off & -> & -> & H).
    cbn [Z.eqb]. apply stats_of_report_ok_iff.
    exists d, i, tp, lra, th, off.
    destruct H as (? & ? & ? & ? & ? & ?). repeat split; auto.
Qed.

(** X7.  [clean_video] returns normally exactly when probe and measurement
    went through and the encode child exited with status 0; the run has
    then spawned three children, the encode last. *)
Theorem clean_video_succeeds_iff (inp out : string) (target_i : float)
  (audio_bitrate : string) (st st' : state) :
  clean_video inp out target_i audio_bitrate st = (inr tt, st')
  <-> exists stats st2 out_text err,
        measured inp target_i st stats st2
        /\ spawn (clean_cmd inp out
                    (apply_af build_base_filters target_i stats)
                    audio_bitrate) (world st2)
           = (Exited 0 out_text err, world st')
        /\ trace st'
           = trace st
               ++ [ffprobe_cmd inp;
                   measure_cmd inp (measure_af build_base_filters target_i);
                   clean_cmd inp out
                     (apply_af build_base_filters target_i stats)
                     audio_bitrate].
Proof.
  split.
  - intros Hrun.
    destruct (clean_video_cases inp out target_i audio_bitrate st)
      as [(e & st1 & _ & H)|[(meta & e & st1 & _ & _ & H)
         |[(meta & st1 & _ & _ & H)|[(e & st1 & st2 & _ & _ & H)
         |(stats & st2 & Hm & H)]]]]; cbv zeta in H;
      rewrite H in Hrun; try discriminate Hrun.
    exists stats, st2. unfold encode_step, bind in Hrun.
    rewrite run_unfold in Hrun.
    destruct (spawn _ (world st2)) as [[rc o e|msg|msg] w] eqn:Hs;
      cbn [fst snd returncode stderr] in Hrun; try discriminate Hrun.
    destruct (Z.eqb_spec rc 0) as [->|_]; [|discriminate Hrun].
    injection Hrun as <-. exists o, e. split; [exact Hm|split].
    + reflexivity.
    + cbn [trace]. rewrite (measured_trace Hm). now rewrite <- app_assoc.
  - intros (stats & st2 & o & e & Hm & Hs & Ht).
    rewrite (clean_video_measured _ _ Hm). unfold encode_step.
    step (run_exited _ _ Hs). cbn [returncode Z.eqb negb]. unfold ret.
    f_equal. destruct st' as [w' t']. cbn [world trace] in *.
    rewrite Ht, (measured_trace Hm). now rewrite <- app_assoc.
Qed.

(** X8.  The order of the children: the probe is spawned first, in every
    run; at most three children are spawned; the analysis is spawned only
    after a probe that found an audio stream; the encode only after a
    measurement that gave statistics, and with the filter argument built
    from those statistics. *)
Theorem spawning_order (inp out : string) (target_i : float)
  (audio_bitrate : string) (st : state) :
  exists spawned,
    trace (snd (clean_video inp out target_i audio_bitrate st))
    = trace st ++ spawned
    /\ hd_error spawned = Some (ffprobe_cmd inp)
    /\ length spawned <= 3
    /\ (forall af,
          In (measure_cmd inp af) spawned ->
          af = measure_af build_base_filters target_i
          /\ exists st1, probed inp st st1)
    /\ (forall af,
          In (clean_cmd inp out af audio_bitrate) spawned ->
          exists stats st2,
            measured inp target_i st stats st2
            /\ af = apply_af build_base_filters target_i stats).
Proof.
  destruct (clean_video_cases inp out target_i audio_bitrate st)
    as [(e & st1 & Hp & H)|[(meta & e & st1 & Hp & _ & H)
       |[(meta & st1 & Hp & _ & H)|[(e & st1 & st2 & Hp & Hm & H)
       |(stats & st2 & Hm & H)]]]]; cbv zeta in H; rewrite H; clear H.
  1-3: exists [ffprobe_cmd inp];
    (split; [eapply ffprobe_json_trace, Hp|]);
    (split; [reflexivity|]); (split; [cbn; lia|]);
    split; intros af [Hin|[]]; discriminate Hin.
  - exists [ffprobe_cmd inp;
            measure_cmd inp (measure_af build_base_filters target_i)].
    split.
    { cbn [snd]. rewrite (measure_loudnorm_trace _ _ _ _ Hm),
        (probed_trace Hp). now rewrite <- app_assoc. }
    split; [reflexivity|]. split; [cbn; lia|]. split.
    + intros af [Hin|[Hin|[]]]; [discriminate Hin|].
      injection Hin as <-. split; [reflexivity|now exists st1].
    + intros af [Hin|[Hin|[]]]; discriminate Hin.
  - exists [ffprobe_cmd inp;
            measure_cmd inp (measure_af build_base_filters target_i);
            clean_cmd inp out (apply_af build_base_filters target_i stats)
              audio_bitrate].
    split.
    { rewrite encode_step_trace, (measured_trace Hm).
      now rewrite <- app_assoc. }
    split; [reflexivity|]. split; [cbn; lia|]. split.
    + intros af [Hin|[Hin|[Hin|[]]]]; try discriminate Hin.
      injection Hin as <-. split; [reflexivity|].
      destruct Hm as (st1 & Hp & _). now exists st1.
    + intros af [Hin|[Hin|[Hin|[]]]]; try discriminate Hin.
      injection Hin as <-. now exists stats, st2.
Qed.

Lemma run_not_run (cmd : list string) (st : state) o w e :
  spawn cmd (world st) = (o, w) ->
  spawn_error o = Some e ->
  run cmd st = (inl e, {| world := w; trace := trace st ++ [cmd] |}).
Proof.
  intros Hs He. rewrite run_unfold, Hs. cbn [fst snd].
  destruct o; try discriminate He; injection He as <-; reflexivity.
Qed.

Lemma run_raises (cmd : list string) (st st' : state) e :
  run cmd st = (inl e, st') -> exists o, spawn_error o = Some e.
Proof.
  rewrite run_unfold.
  destruct (fst (spawn cmd (world st))) as [rc o err|msg|msg];
    intros H; inversion H.
  - now exists (LaunchFailed msg).
  - now exists (Undecodable msg).
Qed.

(** X9.  When [subprocess.run] itself raises at a stage, because the
    executable cannot be started or its output is not text, the run ends
    there with that very exception: no [RuntimeError] is put around it and
    no further child is spawned. *)
Theorem spawn_failure_stops (s : stage) (inp out : string) (target_i : float)
  (audio_bitrate : string) (st st_s : state) (cmd : list string) o w e :
  reaches s inp out target_i audio_bitrate st cmd st_s ->
  spawn cmd (world st_s) = (o, w) ->
  spawn_error o = Some e ->
  clean_video inp out target_i audio_bitrate st
  = (inl e, {| world := w; trace := trace st_s ++ [cmd] |}).
Proof.
  intros Hr Hs He. destruct s; cbn [reaches] in Hr.
  - destruct Hr as [-> ->].
    assert (Hp : ffprobe_json inp st
                 = (inl e, {| world := w;
                              trace := trace st ++ [ffprobe_cmd inp] |})).
    { unfold ffprobe_json. now step (run_not_run _ _ Hs He). }
    unfold clean_video. now step Hp.
  - destruct Hr as [Hp ->]. rewrite (clean_video_probed _ _ _ Hp).
    assert (Hm : measure_loudnorm inp build_base_filters target_i st_s
                 = (inl e,
                    {| world := w;
                       trace := trace st_s
                                  ++ [measure_cmd inp
                                        (measure_af build_base_filters
                                           target_i)] |})).
    { unfold measure_loudnorm. now step (run_not_run _ _ Hs He). }
    now step Hm.
  - destruct Hr as (stats & Hm & ->). rewrite (clean_video_measured _ _ Hm).
    unfold encode_step. now step (run_not_run _ _ Hs He).
Qed.

(** X10.  What [json.loads] raises, on the output of the probe or on the
    block found in the diagnostics of the analysis, comes out of
    [clean_video] unchanged, and the run stops at that stage. *)
Theorem parse_failure_propagates (s : stage) (inp out : string)
  (target_i : float) (audio_bitrate : string) (st st_s : state)
  (cmd : list string) out_text err w text e :
  reaches s inp out target_i audio_bitrate st cmd st_s ->
  spawn cmd (world st_s) = (Exited 0 out_text err, w) ->
  parsed_text s out_text err = Some text ->
  json_loads text = inl e ->
  clean_video inp out target_i audio_bitrate st
  = (inl e, {| world := w; trace := trace st_s ++ [cmd] |}).
Proof.
  intros Hr Hs Ht He. destruct s; cbn [reaches parsed_text] in Hr, Ht.
  - destruct Hr as [-> ->]. injection Ht as <-. unfold clean_video.
    step (ffprobe_json_exited _ _ Hs). cbn [Z.eqb]. now rewrite He.
  - destruct Hr as [Hp ->]. rewrite (clean_video_probed _ _ _ Hp).
    step (measure_loudnorm_exited _ _ _ _ Hs).
    unfold measurement_of. cbn [Z.eqb].
    now rewrite search_is_brace_span, Ht, He.
  - discriminate Ht.
Qed.

Lemma ffprobe_json_raises (inp : string) (st st1 : state) e :
  ffprobe_json inp st = (inl e, st1) -> clean_video_error e.
Proof.
  unfold ffprobe_json, bind.
  destruct (run (ffprobe_cmd inp) st) as [[e'|p] st'] eqn:Hrun.
  - intros H. injection H as <- _.
    destruct (run_raises _ _ Hrun) as [o Ho]. now apply child_not_run with o.
  - destruct (negb (Z.eqb (returncode p) 0)); unfold raise, lift.
    + intros H. injection H as <- _. apply probe_failed.
    + intros H. injection H as H _. now apply not_json with (stdout p).
Qed.

Lemma pick_audio_stream_error (meta : json) (e : exn) :
  pick_audio_stream meta = inl e -> clean_video_error e.
Proof.
  intros H. destruct (visited_streams meta) as [l|] eqn:Hv.
  - rewrite (pick_audio_stream_visits _ Hv) in H.
    apply pick_audio_loop_raises in H as (pre & s & post & _ & _ & Hs & ->).
    now apply descriptor_not_a_mapping.
  - destruct meta as [| | | | | |d];
      try (match type of H with
           | pick_audio_stream ?m = _ =>
               injection H as <-;
               exact (descriptor_not_a_mapping m eq_refl)
           end).
    unfold visited_streams in Hv. unfold pick_audio_stream in H.
    cbn [py_get] in H.
    destruct (dict_get d "streams") as [v|]; [|discriminate Hv].
    destruct (py_iter v) as [e'|l] eqn:Hi; [|discriminate Hv].
    injection H as <-. now apply streams_not_iterable with v.
Qed.

Lemma measure_loudnorm_raises (inp base : string) (target_i : float)
  (st st2 : state) e :
  measure_loudnorm inp base target_i st = (inl e, st2) ->
  clean_video_error e.
Proof.
  unfold measure_loudnorm, bind.
  destruct (run _ st) as [[e'|p] st'] eqn:Hrun.
  - intros H. injection H as <- _.
    destruct (run_raises _ _ Hrun) as [o Ho]. now apply child_not_run with o.
  - destruct (negb (Z.eqb (returncode p) 0)); unfold raise.
    + intros H. injection H as <- _. apply measure_failed.
    + destruct (Re.search LOUDNORM_JSON_RE (stderr p)) as [block|].
      * unfold lift. destruct (json_loads block) as [e'|data] eqn:Hj.
        -- intros H. injection H as <- _. now apply not_json with block.
        -- intros H. injection H as H _.
           apply stats_of_report_error in H as [[Hd Hg]|(k & Hk & ->)].
           ++ now apply report_not_a_mapping with data "input_i"%string.
           ++ now apply field_absent.
      * intros H. injection H as <- _. apply no_report_found.
Qed.

Lemma encode_step_raises (inp out : string) (target_i : float)
  (audio_bitrate : string) (stats : LoudnormStats) (st2 : state) e :
  fst (encode_step inp out target_i audio_bitrate stats st2) = inl e ->
  clean_video_error e.
Proof.
  unfold encode_step, bind.
  destruct (run _ st2) as [[e'|p] st'] eqn:Hrun; cbn [fst].
  - intros H. injection H as <-.
    destruct (run_raises _ _ Hrun) as [o Ho]. now apply child_not_run with o.
  - destruct (negb (Z.eqb (returncode p) 0)); unfold raise, ret; cbn [fst].
    + intros H. injection H as <-. apply encode_failed.
    + discriminate.
Qed.

(** X11.  Every exception [clean_video] ends with has one of these
    origins: one of the program's five [RuntimeError]s, the [KeyError] of a
    field the report lacks, the [TypeError] or [AttributeError] of metadata
    or a report of the wrong shape, what [json.loads] raised, or what
    [subprocess.run] raised because a child did not run. *)
Theorem clean_video_raises_only (inp out : string) (target_i : float)
  (audio_bitrate : string) (st : state) (e : exn) :
  fst (clean_video inp out target_i audio_bitrate st) = inl e ->
  clean_video_error e
  /\ ((forall text e', json_loads text = inl e' ->
                       exn_type e' = "JSONDecodeError") ->
      exn_type e <> "CalledProcessError").
Proof.
  intros Hraised.
  assert (Horigin : clean_video_error e).
  2:{ split; [exact Horigin|]. intros Hjson.
      destruct Horigin
        as [| | | | |k Hk|data k e Hd Hg|v Hv|v e Hi|text e Ht|o e Ho];
        try discriminate.
      - destruct data; try discriminate Hd; injection Hg as <-; discriminate.
      - destruct v; try discriminate Hi; injection Hi as <-; discriminate.
      - rewrite (Hjson _ _ Ht). discriminate.
      - destruct o; try discriminate Ho; injection Ho as <-; discriminate. }
  revert Hraised.
  destruct (clean_video_cases inp out target_i audio_bitrate st)
    as [(e' & st1 & Hp & H)|[(meta & e' & st1 & _ & Ha & H)
       |[(meta & st1 & _ & _ & H)|[(e' & st1 & st2 & _ & Hm & H)
       |(stats & st2 & _ & H)]]]]; cbv zeta in H; rewrite H; cbn [fst];
    intros He; try (injection He as <-).
  - eapply ffprobe_json_raises, Hp.
  - eapply pick_audio_stream_error, Ha.
  - apply no_audio.
  - eapply measure_loudnorm_raises, Hm.
  - eapply encode_step_raises, He.
Qed.

End Cases.

(** ** The loudnorm expressions of the two passes *)

Lemma split_on_lacks (sep : ascii) (a : string) :
  lacks sep a -> split_on sep a = [a].
Proof.
  induction a as [|x a IH]; intros H; [reflexivity|].
  apply lacks_cons in H as [Hx H]. cbn [split_on].
  destruct (Ascii.eqb_spec x sep) as [->|_]; [now contradiction Hx|].
  now rewrite (IH H).
Qed.

Lemma split_on_app (sep : ascii) (a rest : string) :
  lacks sep a ->
  split_on sep (a ++ String sep rest) = a :: split_on sep rest.
Proof.
  induction a as [|x a IH]; intros H; cbn [append split_on].
  - now rewrite Ascii.eqb_refl.
  - apply lacks_cons in H as [Hx H].
    destruct (Ascii.eqb_spec x sep) as [->|_]; [now contradiction Hx|].
    now rewrite (IH H).
Qed.

Lemma split_concat_head (sep : ascii) (p q : string) (ps : list string) :
  lacks sep p ->
  split_on sep (String.concat (String sep "") (p :: q :: ps))
  = p :: split_on sep (String.concat (String sep "") (q :: ps)).
Proof. intros H. cbn [String.concat append]. now apply split_on_app. Qed.

Lemma split_concat (sep : ascii) (p : string) (ps : list string) :
  Forall (lacks sep) (p :: ps) ->
  split_on sep (String.concat (String sep "") (p :: ps)) = p :: ps.
Proof.
  revert p. induction ps as [|q ps IH]; intros p H.
  - apply split_on_lacks. now inversion H.
  - inversion H as [|? ? Hp Hrest]; subst.
    rewrite (split_concat_head _ _ Hp). now rewrite (IH q Hrest).
Qed.

Lemma first_three_of_join (sep : ascii) (a b c q : string)
  (ps : list string) :
  lacks sep a -> lacks sep b -> lacks sep c ->
  firstn 3 (split_on sep (String.concat (String sep "") (a :: b :: c :: q :: ps)))
  = [a; b; c].
Proof.
  intros Ha Hb Hc.
  rewrite (split_concat_head _ _ Ha), (split_concat_head _ _ Hb),
    (split_concat_head _ _ Hc).
  reflexivity.
Qed.

Lemma loudnorm_params_of_join (joined : string) :
  loudnorm_params ("loudnorm=" ++ joined) = Some (split_on ":"%char joined).
Proof.
  unfold loudnorm_params. cbn.
  replace (prefix "" joined) with true by (now destruct joined).
  now rewrite Nat.sub_0_r, substring_whole.
Qed.

Lemma loudnorm_stage_of_af (base stage_text : string) :
  loudnorm_stage base (base ++ "," ++ stage_text) = stage_text.
Proof.
  unfold loudnorm_stage. rewrite length_append. cbn [String.length append].
  replace (String.length base + S (String.length stage_text)
           - S (String.length base)) with (String.length stage_text) by lia.
  change (String "," stage_text) with ("," ++ stage_text)%string.
  rewrite <- append_assoc.
  replace (S (String.length base)) with (String.length (base ++ ","))
    by (rewrite length_append; cbn; lia).
  rewrite substring_skip. apply substring_whole.
Qed.

Section Expressions.

Context {R : Runtime}.

Lemma loudnorm_apply_joined (target_i : float) (stats : LoudnormStats) :
  loudnorm_apply target_i stats
  = ("loudnorm="
       ++ String.concat ":" (apply_params (float_str target_i) stats))%string.
Proof. reflexivity. Qed.

Lemma measure_af_joined (base : string) (target_i : float) :
  measure_af base target_i
  = (base ++ "," ++ "loudnorm="
       ++ String.concat ":" (measure_params (float_str target_i)))%string.
Proof. reflexivity. Qed.

(** X12.  As long as the printed target and the five statistics hold no
    colon, the expression of the apply pass reads back, split at its
    colons, as the ten parameters it was built from, each statistic under
    its own key. *)
Theorem apply_params_round_trip (target_i : float) (stats : LoudnormStats) :
  lacks ":"%char (float_str target_i) ->
  Forall (lacks ":"%char)
    [input_i stats; input_tp stats; input_lra stats; input_thresh stats;
     target_offset stats] ->
  loudnorm_params (loudnorm_apply target_i stats)
  = Some (apply_params (float_str target_i) stats).
Proof.
  intros Ht Hs. rewrite loudnorm_apply_joined, loudnorm_params_of_join.
  f_equal. apply split_concat.
  inversion Hs as [|? ? H1 Hs1]; subst.
  inversion Hs1 as [|? ? H2 Hs2]; subst.
  inversion Hs2 as [|? ? H3 Hs3]; subst.
  inversion Hs3 as [|? ? H4 Hs4]; subst.
  inversion Hs4 as [|? ? H5 _]; subst.
  unfold apply_params.
  repeat (apply Forall_cons; [|]); try apply Forall_nil;
    try reflexivity; apply lacks_append; (split; [reflexivity|assumption]).
Qed.

(** X13.  Both passes are given the same three targets: the loudnorm stage
    of the analysis filter and the one of the apply filter begin with the
    same [I], [TP] and [LRA] parameters, whatever the statistics are. *)
Theorem same_targets_in_both_passes (base : string) (target_i : float)
  (stats : LoudnormStats) :
  lacks ":"%char (float_str target_i) ->
  exists measure_pass apply_pass,
    loudnorm_params (loudnorm_stage base (measure_af base target_i))
    = Some measure_pass
    /\ loudnorm_params (loudnorm_stage base (apply_af base target_i stats))
       = Some apply_pass
    /\ firstn 3 measure_pass
       = [("I=" ++ float_str target_i)%string; "TP=-1.5"; "LRA=11"]
    /\ firstn 3 apply_pass = firstn 3 measure_pass.
Proof.
  intros Ht.
  assert (HI : lacks ":"%char ("I=" ++ float_str target_i))
    by (apply lacks_append; split; [reflexivity|exact Ht]).
  do 2 eexists. split; [|split].
  - rewrite measure_af_joined, loudnorm_stage_of_af.
    apply loudnorm_params_of_join.
  - unfold apply_af. rewrite loudnorm_stage_of_af, loudnorm_apply_joined.
    apply loudnorm_params_of_join.
  - unfold measure_params, apply_params.
    rewrite !(first_three_of_join _ _ HI
                (eq_refl : lacks ":"%char "TP=-1.5")
                (eq_refl : lacks ":"%char "LRA=11")).
    split; reflexivity.
Qed.

End Expressions.


(** ** Concrete runs, beyond the claims *)

(** The scan on the analysis log of the example, and on its own result. *)
Lemma report_block_shape_witness :
  Re.search LOUDNORM_JSON_RE (Fake.analysis_log Fake.report_text)
  = Some Fake.report_text
  /\ Re.search LOUDNORM_JSON_RE Fake.report_text = Some Fake.report_text.
Proof.
  assert (H : Re.search LOUDNORM_JSON_RE (Fake.analysis_log Fake.report_text)
              = Some Fake.report_text) by reflexivity.
  split; [exact H|]. exact (proj2 (@report_block_shape _ _ H)).
Defined.

(** A block with a closing brace inside, between two pieces of log. *)
Lemma report_block_found_witness :
  Re.search LOUDNORM_JSON_RE ("log " ++ "{" ++ " a } tail " ++ "}" ++ " end")
  = Some ("{" ++ " a } tail " ++ "}")%string.
Proof. apply report_block_found; reflexivity. Defined.

(** An entry that is no mapping, after the first audio stream: not seen. *)
Lemma pick_audio_stream_result_witness :
  visited_streams Faults.junk_after_audio
  = Some [Fake.video_stream; Fake.first_audio; JInt 7]
  /\ pick_audio_stream Faults.junk_after_audio = inr (Some Fake.first_audio).
Proof.
  assert (H : visited_streams Faults.junk_after_audio
              = Some [Fake.video_stream; Fake.first_audio; JInt 7])
    by reflexivity.
  split; [exact H|].
  apply (proj1 (@pick_audio_stream_result _ _ H)).
  exists [Fake.video_stream], [JInt 7]. repeat split.
Defined.

(** The same entry before the first audio stream, and a stream list that
    is a number. *)
Lemma pick_audio_stream_raises_witness :
  pick_audio_stream Faults.junk_before_audio = inl (no_get (JInt 7))
  /\ pick_audio_stream Faults.streams_is_a_number
     = inl (TypeError "'int' object is not iterable")
  /\ pick_audio_stream (JArr []) = inl (no_get (JArr [])).
Proof.
  split; [|split].
  - apply (proj2 (proj2 (pick_audio_stream_raises Faults.junk_before_audio))
             [Fake.video_stream; JInt 7; Fake.first_audio]
             (no_get (JInt 7)) eq_refl).
    exists [Fake.video_stream], (JInt 7), [Fake.first_audio]. repeat split.
  - apply (proj1 (proj2 (pick_audio_stream_raises
                           Faults.streams_is_a_number))
             [("streams", JInt 2)] (JInt 2)
             (TypeError "'int' object is not iterable")
             eq_refl eq_refl eq_refl).
  - apply (proj1 (pick_audio_stream_raises (JArr [])) eq_refl).
Defined.

(** The measurer on the analysis log of the example. *)
Lemma measure_loudnorm_succeeds_iff_witness :
  fst (measure_loudnorm (R := Fake.runtime) "clip.mp4" build_base_filters
         (-16)%float (Fake.after [Fake.probe_cmd] Fake.all_good))
  = inr example_stats.
Proof.
  apply (@measure_loudnorm_succeeds_iff Fake.runtime "clip.mp4"
           build_base_filters (-16)%float
           (Fake.after [Fake.probe_cmd] Fake.all_good) 0 ""
           (Fake.analysis_log Fake.report_text)
           [Exited 0 "" "Input Integrated: -23.1 LUFS"] example_stats
           eq_refl).
  split; [reflexivity|].
  exists Fake.report_text,
    [("input_i", JStr "-23.1"); ("input_tp", JStr "-2.0");
     ("input_lra", JStr "7.3"); ("input_thresh", JStr "-33.5");
     ("target_offset", JStr "1.2")],
    (JStr "-23.1"), (JStr "-2.0"), (JStr "7.3"), (JStr "-33.5"), (JStr "1.2").
  repeat split.
Defined.

Lemma fake_probed (w : list child_outcome) :
  hd_error w = Some (Exited 0 Fake.audio_only_text "") ->
  probed "clip.mp4" (Fake.start w) (Fake.after [Fake.probe_cmd] w).
Proof.
  destruct w as [|o w]; [discriminate|]. intros H. injection H as ->.
  exists Fake.audio_only, (JObj [("codec_type", JStr "audio")]).
  split; reflexivity.
Defined.

Lemma fake_measured (w : list child_outcome) :
  firstn 2 w = firstn 2 Fake.all_good ->
  measured "clip.mp4" (-16)%float (Fake.start w) example_stats
    (Fake.after [Fake.probe_cmd; Fake.analysis_cmd] w).
Proof.
  destruct w as [|o1 [|o2 w]]; try discriminate.
  intros H. injection H as -> ->.
  exists (Fake.after [Fake.probe_cmd] (Exited 0 Fake.audio_only_text ""
                                        :: Exited 0 "" (Fake.analysis_log
                                                          Fake.report_text)
                                        :: w)).
  split; [now apply fake_probed|reflexivity].
Defined.

(** The run in which every child succeeds. *)
Lemma clean_video_succeeds_iff_witness :
  Fake.clean Fake.all_good
  = (inr tt,
     Fake.after [Fake.probe_cmd; Fake.analysis_cmd; Fake.encode_cmd]
       Fake.all_good).
Proof.
  apply (@clean_video_succeeds_iff Fake.runtime).
  exists example_stats,
    (Fake.after [Fake.probe_cmd; Fake.analysis_cmd] Fake.all_good),
    ""%string, "Input Integrated: -23.1 LUFS"%string.
  split; [now apply fake_measured|]. split; reflexivity.
Defined.

(** [ffprobe] missing, and [ffmpeg] missing. *)
Lemma spawn_failure_stops_witness :
  Fake.clean Faults.nothing_installed
  = (inl (OSError "No such file or directory"),
     Fake.after [Fake.probe_cmd] Faults.nothing_installed)
  /\ Fake.clean Faults.no_ffmpeg
     = (inl (OSError "No such file or directory"),
        Fake.after [Fake.probe_cmd; Fake.analysis_cmd] Faults.no_ffmpeg).
Proof.
  split.
  - exact (@spawn_failure_stops Fake.runtime Probe "clip.mp4" "out.mp4"
             (-16)%float "192k" (Fake.start Faults.nothing_installed)
             (Fake.start Faults.nothing_installed) Fake.probe_cmd
             (LaunchFailed "No such file or directory") []
             (OSError "No such file or directory")
             (conj eq_refl eq_refl) eq_refl eq_refl).
  - exact (@spawn_failure_stops Fake.runtime Measure "clip.mp4" "out.mp4"
             (-16)%float "192k" (Fake.start Faults.no_ffmpeg)
             (Fake.after [Fake.probe_cmd] Faults.no_ffmpeg) Fake.analysis_cmd
             (LaunchFailed "No such file or directory") []
             (OSError "No such file or directory")
             (conj (fake_probed Faults.no_ffmpeg eq_refl) eq_refl)
             eq_refl eq_refl).
Defined.

(** A probe that prints no JSON, and a log whose block runs on to a later
    closing brace. *)
Lemma parse_failure_propagates_witness :
  Fake.clean Faults.garbled_probe
  = (inl (JSONDecodeError "Expecting value"),
     Fake.after [Fake.probe_cmd] Faults.garbled_probe)
  /\ brace_span Faults.trailing_brace_log
     = Some (Fake.report_text ++ nl ++ "}")%string
  /\ Fake.clean Faults.trailing_brace
     = (inl (JSONDecodeError "Expecting value"),
        Fake.after [Fake.probe_cmd; Fake.analysis_cmd] Faults.trailing_brace).
Proof.
  split; [|split; [reflexivity|]].
  - exact (@parse_failure_propagates Fake.runtime Probe "clip.mp4" "out.mp4"
             (-16)%float "192k" (Fake.start Faults.garbled_probe)
             (Fake.start Faults.garbled_probe) Fake.probe_cmd
             "Unrecognized option" "" [] "Unrecognized option"
             (JSONDecodeError "Expecting value")
             (conj eq_refl eq_refl) eq_refl eq_refl eq_refl).
  - exact (@parse_failure_propagates Fake.runtime Measure "clip.mp4"
             "out.mp4" (-16)%float "192k" (Fake.start Faults.trailing_brace)
             (Fake.after [Fake.probe_cmd] Faults.trailing_brace)
             Fake.analysis_cmd "" Faults.trailing_brace_log []
             (Fake.report_text ++ nl ++ "}")%string
             (JSONDecodeError "Expecting value")
             (conj (fake_probed Faults.trailing_brace eq_refl) eq_refl)
             eq_refl eq_refl eq_refl).
Defined.

Lemma fake_loads_raises (docs : list (string * json)) (text : string)
  (e : exn) :
  Fake.lookup docs text = inl e -> exn_type e = "JSONDecodeError".
Proof.
  induction docs as [|[t v] docs IH]; cbn [Fake.lookup].
  - intros H. now injection H as <-.
  - destruct (String.eqb t text); [discriminate|exact IH].
Defined.

(** The run whose analysis prints no report. *)
Lemma clean_video_raises_only_witness :
  let e := RuntimeError
             ("Could not parse loudnorm json from ffmpeg output:"
                ++ nl ++ "size=N/A time=00:00:05.00") in
  fst (Fake.clean Fake.no_report) = inl e
  /\ clean_video_error (R := Fake.runtime) e
  /\ exn_type e <> "CalledProcessError".
Proof.
  cbv zeta.
  assert (H : fst (Fake.clean Fake.no_report)
              = inl (RuntimeError
                       ("Could not parse loudnorm json from ffmpeg output:"
                          ++ nl ++ "size=N/A time=00:00:05.00")))
    by reflexivity.
  split; [exact H|].
  destruct (@clean_video_raises_only Fake.runtime _ _ _ _ _ _ H)
    as [Horigin Hnever].
  split; [exact Horigin|]. apply Hnever.
  intros text e'. apply fake_loads_raises.
Defined.

(** The example of section 8. *)
Lemma apply_params_round_trip_witness :
  loudnorm_params
    (loudnorm_apply (R := Fake.runtime) (-16)%float example_stats)
  = Some (apply_params "-16.0" example_stats).
Proof.
  apply (@apply_params_round_trip Fake.runtime (-16)%float example_stats).
  - reflexivity.
  - repeat constructor.
Defined.

(** The two filter arguments of the example. *)
Lemma same_targets_in_both_passes_witness :
  lacks ":"%char (float_str (Runtime := Fake.runtime) (-16)%float)
  /\ exists measure_pass apply_pass,
       loudnorm_params
         (loudnorm_stage build_base_filters
            (measure_af (R := Fake.runtime) build_base_filters (-16)%float))
       = Some measure_pass
       /\ loudnorm_params
            (loudnorm_stage build_base_filters
               (apply_af (R := Fake.runtime) build_base_filters (-16)%float
                  example_stats))
          = Some apply_pass
       /\ firstn 3 measure_pass = ["I=-16.0"; "TP=-1.5"; "LRA=11"]
       /\ firstn 3 apply_pass = firstn 3 measure_pass.
Proof.
  split; [reflexivity|].
  apply (@same_targets_in_both_passes Fake.runtime build_base_filters
           (-16)%float example_stats).
  reflexivity.
Defined.
